(** * Onboarding flow of the BTicino X8000 integration

    A shallow embedding of [custom_components/bticino_x8000/config_flow.py]
    (class [BticinoX8000ConfigFlow]) and the properties of its three
    interactive steps.

    Modelling conventions.
    - Python exceptions are values of [exn]; a step runs in the monad
      [M], which threads the object state ([self]), the state of
      everything outside the flow (the [world]) and a log of the external
      calls made so far.  A raised exception keeps the mutations made
      before it, as in Python.
    - Everything the module imports is external to it and is an interface:
      the constants of [.const], [exchange_code_for_tokens] of [.auth],
      the methods of [BticinoX8000Api], the host platform ([hass],
      [generate_id], the existing config entries), [urllib.parse],
      [secrets] and the iteration order of a Python [set].  They are the
      fields of the classes [Consts], [UrlLib] and [Platform]; every
      theorem holds for every implementation of them.
    - Payloads of the remote API are typed records holding the keys the
      flow reads; a payload that lacks one of these keys is outside the
      model.  Logging calls are not modelled. *)

From Stdlib Require Import ZArith Ascii String.
From Stdlib.Strings Require Import Byte.
From stdpp Require Import base option list gmap strings.

Local Open Scope string_scope.
Local Open Scope list_scope.

(** ** Exceptions and results *)

(** The exception classes a step can meet.  [ValueError] stands for the
    class and its subclasses (what [except ValueError] catches);
    [UnboundLocalError] is a subclass of [NameError]. *)
Inductive exn : Type :=
| ValueError (msg : string)
| KeyError (key : string)
| IndexError
| AttributeError (attr : string)
| UnboundLocalError (var : string)
| OtherError (cls : string).

Definition is_ValueError (e : exn) : bool :=
  match e with ValueError _ => true | _ => false end.

Definition is_NameError (e : exn) : bool :=
  match e with UnboundLocalError _ => true | _ => false end.

Inductive result (A : Type) : Type :=
| Ok (a : A)
| Raise (e : exn).
Arguments Ok {A} a.
Arguments Raise {A} e.

(** ** Data *)

(** [self.data]: the four answers of the credentials form, to which the
    second step adds the code and the token set.  Reading a key that was
    not stored yet is a [KeyError]. *)
Record flow_data : Type := mk_flow_data {
  client_id : string;
  client_secret : string;
  subscription_key : string;
  external_url : string;
  code : option string;
  access_token : option string;
  refresh_token : option string;
  access_token_expires_on : option string
}.

(** [d["code"] = c]. *)
Definition set_code (d : flow_data) (c : string) : flow_data :=
  mk_flow_data (client_id d) (client_secret d) (subscription_key d)
    (external_url d) (Some c) (access_token d) (refresh_token d)
    (access_token_expires_on d).

(** The three assignments of lines 136-138. *)
Definition set_tokens (d : flow_data) (tokens : string * string * string)
  : flow_data :=
  mk_flow_data (client_id d) (client_secret d) (subscription_key d)
    (external_url d) (code d)
    (Some tokens.1.1) (Some tokens.1.2) (Some tokens.2).

Record program : Type := mk_program {
  number : Z;
  program_name : string
}.

Record plant : Type := mk_plant { plant_id : string }.

Record topology_device : Type := mk_topology_device {
  device_id : string;
  device_name : string
}.

(** The value stored per key of [thermostat_options]. *)
Record thermostat : Type := mk_thermostat {
  thermo_id : string;
  name : string;
  webhook_id : string;
  programs : list program
}.

(** [{**thermo_data, "subscription_id": ...}]. *)
Record selected_thermostat : Type := mk_selected {
  selected_data : thermostat;
  subscription_id : option string
}.

Record plants_response : Type := mk_plants_response {
  plants_status_code : Z;
  plants_data : list plant
}.

Record subscribe_response : Type := mk_subscribe_response {
  status_code : Z;
  text_subscriptionId : string
}.

(** The [data] argument of [async_create_entry]. *)
Record config_record : Type := mk_config_record {
  entry_client_id : string;
  entry_client_secret : string;
  entry_subscription_key : string;
  entry_external_url : string;
  entry_access_token : string;
  entry_refresh_token : string;
  entry_access_token_expires_on : string;
  selected_thermostats : list (string * selected_thermostat)
}.

(** The three [vol.Schema] values the flow builds. *)
Inductive schema : Type :=
| UserSchema (client_id_default client_secret_default
              subscription_key_default : string)
             (external_url_default : option string)
| BrowserUrlSchema (default : string)
| SelectThermostatsSchema (default options : list string).

Inductive FlowResult : Type :=
| Abort (reason : string)
| ShowForm (step_id : string) (data_schema : schema) (errors : option string)
| CreateEntry (title : string) (data : config_record).

(** ** Python dictionaries that keep insertion order

    [thermostat_options] is iterated, so its order matters: an
    association list without duplicate keys, where storing under a key
    that is present replaces the value in place and storing under a new
    key appends. *)
Fixpoint dict_update {V : Type} (k : string) (v : V)
    (d : list (string * V)) : list (string * V) :=
  match d with
  | [] => [(k, v)]
  | (k', v') :: d' =>
      if String.eqb k' k then (k, v) :: d' else (k', v') :: dict_update k v d'
  end.

Fixpoint dict_get {V : Type} (k : string) (d : list (string * V)) : option V :=
  match d with
  | [] => None
  | (k', v') :: d' => if String.eqb k' k then Some v' else dict_get k d'
  end.

(** ** Text helpers *)

(** [cut_at c s]: the text before the first [c], and the text after it
    when there is one ([str.partition]). *)
Fixpoint cut_at (c : ascii) (s : string) : string * option string :=
  match s with
  | EmptyString => (EmptyString, None)
  | String a s' =>
      if Ascii.eqb a c then (EmptyString, Some s')
      else let '(h, t) := cut_at c s' in (String a h, t)
  end.

(** [split_on c s]: [s.split(c)]. *)
Fixpoint split_on (c : ascii) (s : string) : list string :=
  match s with
  | EmptyString => [EmptyString]
  | String a s' =>
      if Ascii.eqb a c then EmptyString :: split_on c s'
      else match split_on c s' with
           | h :: t => String a h :: t
           | [] => [String a EmptyString]
           end
  end.

Fixpoint occurs (c : ascii) (s : string) : bool :=
  match s with
  | EmptyString => false
  | String a s' => Ascii.eqb a c || occurs c s'
  end.

(** The query component of a URL, read textually: what follows the first
    [?] of what precedes the first [#]. *)
Definition query_of (u : string) : string :=
  match cut_at "?" (cut_at "#" u).1 with
  | (_, Some q) => q
  | (_, None) => EmptyString
  end.

(** The fields of a query string, in order: each [key=value] field as its
    key and its value, a field without [=] as its text and no value.
    Nothing is decoded. *)
Definition query_pairs (q : string) : list (string * option string) :=
  map (cut_at "=") (split_on "&" q).

(** Lower-case hexadecimal, as [bytes.hex]. *)
Definition hex_digit (n : N) : ascii :=
  match n with
  | 0 => "0" | 1 => "1" | 2 => "2" | 3 => "3" | 4 => "4" | 5 => "5"
  | 6 => "6" | 7 => "7" | 8 => "8" | 9 => "9" | 10 => "a" | 11 => "b"
  | 12 => "c" | 13 => "d" | 14 => "e" | _ => "f"
  end%N%char.

Fixpoint hex (bs : list byte) : string :=
  match bs with
  | [] => EmptyString
  | b :: bs' =>
      String (hex_digit (Byte.to_N b / 16))
        (String (hex_digit (Byte.to_N b mod 16)) (hex bs'))
  end.

(** ** The interfaces of what the module imports *)

(** The constants of [.const]: the flow only concatenates these strings
    or offers them as form defaults, so their values are left open. *)
Class Consts : Type := {
  AUTH_URL_ENDPOINT : string;
  CLIENT_ID : string;
  CLIENT_SECRET : string;
  DEFAULT_AUTH_BASE_URL : string;
  DEFAULT_REDIRECT_URI : string;
  SUBSCRIPTION_KEY : string
}.

(** The pure library functions.  [urlparse_query u] is
    [urlparse(u).query] ([urlparse] raises [ValueError] on some inputs);
    [parse_qs] returns the dictionary of value lists; [set_to_list l] is
    [list(set(l))], whose order Python leaves open. *)
Class PyLib : Type := {
  urlparse_query : string -> result string;
  parse_qs : string -> gmap string (list string);
  set_to_list : list string -> list string
}.

(** The only facts about [list(set(...))] that hold in every run. *)
Class SetToListSpec (L : PyLib) : Prop := {
  set_to_list_NoDup : forall l, NoDup (set_to_list l);
  set_to_list_elem : forall l x, x ∈ set_to_list l <-> x ∈ l
}.

(** The stateful collaborators over the state [W] of the outside world:
    the host platform, the entropy source, the token endpoint and the
    remote device API.  [hass_config_external_url] is the read of
    [hass.config.external_url], which may fail or give [None];
    [async_current_entries] tells whether [_async_current_entries()] is
    non-empty; [random_byte] is the entropy source behind [secrets].  An
    API method receives the data the [BticinoX8000Api] object was built
    from; [get_topology] and [get_chronothermostat_programlist] return the
    list under the key ["data"] of their payload.  A call to the token
    endpoint or to the API may raise. *)
Class Platform (W : Type) : Type := {
  hass_config_external_url : W -> result (option string);
  async_current_entries : W -> bool;
  generate_id : W -> string * W;
  random_byte : W -> byte * W;
  exchange_code_for_tokens :
    string -> string -> string -> string ->
    W -> result (string * string * string) * W;
  check_api_endpoint_health : flow_data -> W -> result bool * W;
  get_plants : flow_data -> W -> result plants_response * W;
  get_topology : flow_data -> string -> W -> result (list topology_device) * W;
  get_chronothermostat_programlist :
    flow_data -> string -> string -> W -> result (list program) * W;
  set_subscribe_C2C_notifications :
    flow_data -> string -> string -> W -> result subscribe_response * W
}.

(** The log of external calls, in the order they are made. *)
Inductive call : Type :=
| Call_token_hex (nbytes : nat)
| Call_generate_id
| Call_exchange_code_for_tokens (cid secret redirect_uri auth_code : string)
| Call_check_api_endpoint_health
| Call_get_plants
| Call_get_topology (plantId : string)
| Call_get_chronothermostat_programlist (plantId topology_id : string)
| Call_set_subscribe_C2C_notifications (plantId EndPointUrl : string).

(** The calls of the discovery and subscription phases. *)
Definition is_device_api (c : call) : bool :=
  match c with
  | Call_get_plants | Call_get_topology _
  | Call_get_chronothermostat_programlist _ _
  | Call_set_subscribe_C2C_notifications _ _ => true
  | _ => false
  end.

(** ** The flow object and the monad of a step *)

(** The attributes of [self] the flow assigns; [None] is an attribute
    that was not assigned yet. *)
Record flow : Type := mk_flow {
  data : option flow_data;
  bticino_api : option flow_data;
  _thermostat_options : option (list (string * thermostat))
}.

Definition new_flow : flow :=
  {| data := None; bticino_api := None; _thermostat_options := None |}.

Record state (W : Type) : Type := mk_state {
  self : flow;
  world : W;
  calls : list call
}.
Arguments mk_state {W} self world calls.
Arguments self {W} s.
Arguments world {W} s.
Arguments calls {W} s.

Definition M (W A : Type) : Type := state W -> result A * state W.

Definition ret {W A} (a : A) : M W A := fun s => (Ok a, s).

Definition bind {W A B} (m : M W A) (k : A -> M W B) : M W B :=
  fun s => match m s with
           | (Ok a, s') => k a s'
           | (Raise e, s') => (Raise e, s')
           end.

Definition raise {W A} (e : exn) : M W A := fun s => (Raise e, s).

Notation "x <- m ;; k" := (bind m (fun x => k))
  (at level 100, m at next level, right associativity).
Notation "m ;;; k" := (bind m (fun _ => k))
  (at level 100, right associativity).

(** [try: body except ValueError: handler]. *)
Definition try_except_ValueError {W A} (body : M W A) (handler : exn -> M W A)
  : M W A :=
  fun s => match body s with
           | (Raise e, s') =>
               if is_ValueError e then handler e s' else (Raise e, s')
           | r => r
           end.

Definition lift {W A} (r : result A) : M W A := fun s => (r, s).

(** A call to a collaborator: it is logged and moves the world. *)
Definition external {W A} (c : call) (f : W -> result A * W) : M W A :=
  fun s => let '(r, w') := f (world s) in
           (r, mk_state (self s) w' (calls s ++ [c])).

Definition observe {W A} (f : W -> A) : M W A := fun s => (Ok (f (world s)), s).

(** Reading and assigning the attributes of [self]. *)
Definition get_attr {W A} (attr : string) (proj : flow -> option A) : M W A :=
  fun s => match proj (self s) with
           | Some a => (Ok a, s)
           | None => (Raise (AttributeError attr), s)
           end.

Definition set_self {W} (f : flow -> flow) : M W unit :=
  fun s => (Ok tt, mk_state (f (self s)) (world s) (calls s)).

(** [d[key]] for a key of [self.data] that may be missing. *)
Definition item {W A} (key : string) (v : option A) : M W A :=
  match v with
  | Some a => ret a
  | None => raise (KeyError key)
  end.

(** [l[0]]. *)
Definition first_item {W A} (l : list A) : M W A :=
  match l with
  | a :: _ => ret a
  | [] => raise IndexError
  end.

Fixpoint foldM {W A B} (f : B -> A -> M W B) (l : list A) (b : B) : M W B :=
  match l with
  | [] => ret b
  | x :: l' => b' <- f b x ;; foldM f l' b'
  end.

Fixpoint mapM {W A B} (f : A -> M W B) (l : list A) : M W (list B) :=
  match l with
  | [] => ret []
  | x :: l' => y <- f x ;; ys <- mapM f l' ;; ret (y :: ys)
  end.

(** ** The flow: [BticinoX8000ConfigFlow] *)

Section ConfigFlow.

Context {C : Consts} {L : PyLib} {W : Type} {P : Platform W}.

Definition newline : string := String (ascii_of_nat 10) EmptyString.

Definition external_url_prompt : string :=
  "My HA external url ex: https://pippo.duckdns.com:8123 (specify the port if is not standard 443)".

Definition authorize_message (authorization_url : string) : string :=
  "Click the link below to authorize Bticino X8000. After authorization, paste the browser URL here."
  +:+ newline +:+ newline +:+ authorization_url.

Definition invalid_callback_message : string :=
  "Unable to identify the Authorize Code or State. Please make sure to provide a valid URL.".

(** [os.urandom(n)], one byte at a time. *)
Fixpoint urandom (n : nat) (w : W) : list byte * W :=
  match n with
  | O => ([], w)
  | S n' => let '(b, w1) := random_byte w in
            let '(bs, w2) := urandom n' w1 in
            (b :: bs, w2)
  end.

(** [secrets.token_hex(nbytes)]. *)
Definition token_hex (nbytes : nat) : M W string :=
  external (Call_token_hex nbytes)
    (fun w => let '(bs, w') := urandom nbytes w in (Ok (hex bs), w')).

(** [get_authorization_url], lines 94-103. *)
Definition get_authorization_url (user_input : flow_data) : M W string :=
  state <- token_hex 16 ;;
  ret ((DEFAULT_AUTH_BASE_URL +:+ AUTH_URL_ENDPOINT +:+ "?")
       +:+ ("client_id=" +:+ client_id user_input)
       +:+ "&response_type=code"
       +:+ ("&state=" +:+ state)
       +:+ ("&redirect_uri=" +:+ DEFAULT_REDIRECT_URI)).

(** [async_step_user], lines 32-92.  The bare [except] around the read
    of [hass.config.external_url] swallows every exception. *)
Definition async_step_user (user_input : option flow_data) : M W FlowResult :=
  external_url <- observe (fun w =>
                    match hass_config_external_url w with
                    | Ok u => u
                    | Raise _ => Some external_url_prompt
                    end) ;;
  entries <- observe async_current_entries ;;
  if (entries : bool) then ret (Abort "single_instance_allowed")
  else
    match user_input with
    | None =>
        ret (ShowForm "user"
               (UserSchema CLIENT_ID CLIENT_SECRET SUBSCRIPTION_KEY external_url)
               None)
    | Some user_input =>
        set_self (fun f => mk_flow (Some user_input) (bticino_api f)
                             (_thermostat_options f)) ;;;
        authorization_url <- get_authorization_url user_input ;;
        ret (ShowForm "get_authorize_code"
               (BrowserUrlSchema "Paste here the browser URL")
               (Some (authorize_message authorization_url)))
    end.

(** [get_programs_from_api], lines 208-219. *)
Definition get_programs_from_api (plantId topology_id : string)
  : M W (list program) :=
  api <- get_attr "bticino_api" bticino_api ;;
  programs <- external (Call_get_chronothermostat_programlist plantId topology_id)
                (get_chronothermostat_programlist api plantId topology_id) ;;
  ret (filter (fun p => number p ≠ 0%Z) programs).

(** [add_c2c_subscription], lines 194-206. *)
Definition add_c2c_subscription (plantId webhook : string)
  : M W (option string) :=
  let webhook_path := "/api/webhook/" in
  d <- get_attr "data" data ;;
  let webhook_endpoint := (external_url d +:+ webhook_path) +:+ webhook in
  api <- get_attr "bticino_api" bticino_api ;;
  response <- external (Call_set_subscribe_C2C_notifications plantId webhook_endpoint)
                (set_subscribe_C2C_notifications api plantId webhook_endpoint) ;;
  if Z.eqb (status_code response) 201
  then ret (Some (text_subscriptionId response))
  else ret None.

(** [query_params.get(key, [""])]. *)
Definition query_param (query_params : gmap string (list string))
    (key : string) : list string :=
  default [""] (query_params !! key).

(** Lines 111-121: the code and the state of the pasted URL. *)
Definition callback_code (browser_url : string) : M W string :=
  parsed_query <- lift (urlparse_query browser_url) ;;
  let query_params := parse_qs parsed_query in
  auth_code <- first_item (query_param query_params "code") ;;
  state <- first_item (query_param query_params "state") ;;
  if String.eqb auth_code "" || String.eqb state ""
  then raise (ValueError invalid_callback_message)
  else ret auth_code.

(** Lines 152-165: the body of the loop over the devices of one plant. *)
Definition add_thermostat_option (plantId : string)
    (thermostat_options : list (string * thermostat)) (thermo : topology_device)
  : M W (list (string * thermostat)) :=
  webhook <- external Call_generate_id (fun w => let '(i, w') := generate_id w in (Ok i, w')) ;;
  progs <- get_programs_from_api plantId (device_id thermo) ;;
  ret (dict_update plantId
         {| thermo_id := device_id thermo;
            name := device_name thermo;
            webhook_id := webhook;
            programs := progs |}
         thermostat_options).

(** Lines 150-165: the body of the loop over the plant identifiers. *)
Definition add_plant_options
    (thermostat_options : list (string * thermostat)) (plantId : string)
  : M W (list (string * thermostat)) :=
  api <- get_attr "bticino_api" bticino_api ;;
  topologies <- external (Call_get_topology plantId) (get_topology api plantId) ;;
  foldM (add_thermostat_option plantId) topologies thermostat_options.

(** Lines 148-166: the branch taken on status 200. *)
Definition discover_thermostats (plants : list plant)
  : M W (list (string * thermostat)) :=
  let plant_ids := set_to_list (map plant_id plants) in
  thermostat_options <- foldM add_plant_options plant_ids [] ;;
  set_self (fun f => mk_flow (data f) (bticino_api f) (Some thermostat_options)) ;;;
  ret thermostat_options.

(** Reading a local variable that may not have been assigned. *)
Definition local {A} (var : string) (v : option A) : M W A :=
  match v with
  | Some a => ret a
  | None => raise (UnboundLocalError var)
  end.

(** [[thermostat_options[thermo]["name"] for thermo in thermostat_options]]:
    the name stored under each key, in the order of the keys. *)
Definition option_names (thermostat_options : list (string * thermostat))
  : list string :=
  map (fun kv => name (snd kv)) thermostat_options.

(** [async_step_get_authorize_code()] called without input: the guard of
    line 109 fails and only line 192 runs. *)
Definition reenter_user_step : M W FlowResult :=
  d <- get_attr "data" data ;;
  async_step_user (Some d).

(** Lines 142-187: the health check, the discovery and the selection
    form.  [thermostat_options] is a local variable that only the branch
    of status 200 assigns. *)
Definition discovery_form : M W FlowResult :=
  api <- get_attr "bticino_api" bticino_api ;;
  healthy <- external Call_check_api_endpoint_health
               (check_api_endpoint_health api) ;;
  if negb healthy then ret (Abort "Auth Failed!")
  else
    plants <- external Call_get_plants (get_plants api) ;;
    thermostat_options <-
      (if Z.eqb (plants_status_code plants) 200
       then o <- discover_thermostats (plants_data plants) ;; ret (Some o)
       else ret None) ;;
    default_names <- local "thermostat_options" thermostat_options ;;
    options <- local "thermostat_options" thermostat_options ;;
    ret (ShowForm "select_thermostats"
           (SelectThermostatsSchema (option_names default_names)
              (option_names options))
           None).

(** Lines 111-187: the body of the [try]. *)
Definition authorize_code_attempt (browser_url : string) : M W FlowResult :=
  auth_code <- callback_code browser_url ;;
  d <- get_attr "data" data ;;
  set_self (fun f => mk_flow (Some (set_code d auth_code))
                       (bticino_api f) (_thermostat_options f)) ;;;
  d <- get_attr "data" data ;;
  tokens <- external
              (Call_exchange_code_for_tokens (client_id d) (client_secret d)
                 DEFAULT_REDIRECT_URI auth_code)
              (exchange_code_for_tokens (client_id d) (client_secret d)
                 DEFAULT_REDIRECT_URI auth_code) ;;
  set_self (fun f => mk_flow (Some (set_tokens d tokens))
                       (bticino_api f) (_thermostat_options f)) ;;;
  set_self (fun f => mk_flow (data f) (data f) (_thermostat_options f)) ;;;
  discovery_form.

(** [async_step_get_authorize_code], lines 105-192.  Every path of the
    [try] returns or raises, so line 192 is reached only without input. *)
Definition async_step_get_authorize_code (user_input : option string)
  : M W FlowResult :=
  match user_input with
  | Some browser_url =>
      try_except_ValueError (authorize_code_attempt browser_url)
        (fun error => reenter_user_step)
  | None => reenter_user_step
  end.

(** [async_step_select_thermostats], lines 221-249.  The condition of the
    comprehension is pure, so the elements are computed over the entries
    that pass it, in the order of the dictionary. *)
Definition async_step_select_thermostats (user_input : list string)
  : M W FlowResult :=
  thermostat_options <- get_attr "_thermostat_options" _thermostat_options ;;
  selected <- mapM (fun kv : string * thermostat =>
                      sub <- add_c2c_subscription kv.1 (webhook_id kv.2) ;;
                      ret (kv.1, mk_selected kv.2 sub))
                (filter (fun kv : string * thermostat => name kv.2 ∈ user_input)
                   thermostat_options) ;;
  d <- get_attr "data" data ;;
  tok <- item "access_token" (access_token d) ;;
  rtok <- item "refresh_token" (refresh_token d) ;;
  expires <- item "access_token_expires_on" (access_token_expires_on d) ;;
  ret (CreateEntry "Bticino X8000"
         {| entry_client_id := client_id d;
            entry_client_secret := client_secret d;
            entry_subscription_key := subscription_key d;
            entry_external_url := external_url d;
            entry_access_token := tok;
            entry_refresh_token := rtok;
            entry_access_token_expires_on := expires;
            selected_thermostats := selected |}).

End ConfigFlow.

(** ** The vocabulary of the statements *)

(** The value of a hexadecimal digit. *)
Definition hex_value (a : ascii) : N :=
  match a with
  | "0" => 0 | "1" => 1 | "2" => 2 | "3" => 3 | "4" => 4 | "5" => 5
  | "6" => 6 | "7" => 7 | "8" => 8 | "9" => 9 | "a" => 10 | "b" => 11
  | "c" => 12 | "d" => 13 | "e" => 14 | _ => 15
  end%N%char.

(** A program the Program Filter keeps. *)
Definition user_schedule (p : program) : Prop := number p ≠ 0%Z.

Section Vocabulary.

Context {C : Consts} {L : PyLib} {W : Type} {P : Platform W}.

(** [only F m]: a run of [m] appends calls to the log, all of them
    satisfying [F]. *)
Definition only {A} (F : call -> Prop) (m : M W A) : Prop :=
  forall s, exists new, calls (m s).2 = calls s ++ new /\ Forall F new.

(** The URL [get_authorization_url] composes around the token [state]. *)
Definition authorization_url_of (cid state : string) : string :=
  (DEFAULT_AUTH_BASE_URL +:+ AUTH_URL_ENDPOINT +:+ "?")
  +:+ ("client_id=" +:+ cid)
  +:+ "&response_type=code"
  +:+ ("&state=" +:+ state)
  +:+ ("&redirect_uri=" +:+ DEFAULT_REDIRECT_URI).

(** The form of the second step, as [async_step_user] builds it. *)
Definition callback_form (cid state : string) : FlowResult :=
  ShowForm "get_authorize_code"
    (BrowserUrlSchema "Paste here the browser URL")
    (Some (authorize_message (authorization_url_of cid state))).

(** The session data after the token exchange. *)
Definition exchanged (d : flow_data) (c : string)
    (tokens : string * string * string) : flow_data :=
  set_tokens (set_code d c) tokens.

(** The delivery URL registered for a webhook identifier. *)
Definition webhook_endpoint_of (d : flow_data) (webhook : string) : string :=
  (external_url d +:+ "/api/webhook/") +:+ webhook.

(** What [add_c2c_subscription] makes of a response. *)
Definition subscription_of (response : subscribe_response) : option string :=
  if Z.eqb (status_code response) 201
  then Some (text_subscriptionId response) else None.

(** The element of the persisted list for the candidate [kv] whose
    request was answered with [response]. *)
Definition selected_entry (kv : string * thermostat)
    (response : subscribe_response) : string * selected_thermostat :=
  (kv.1, mk_selected kv.2 (subscription_of response)).

Definition subscribe_call (d : flow_data) (kv : string * thermostat) : call :=
  Call_set_subscribe_C2C_notifications kv.1
    (webhook_endpoint_of d (webhook_id kv.2)).

(** The answers of the API to the requests for the candidates [chosen],
    made one after the other from the world [w], up to the first request
    that raises. *)
Fixpoint subscribe_answers (d api : flow_data)
    (chosen : list (string * thermostat)) (w : W) : list subscribe_response :=
  match chosen with
  | [] => []
  | kv :: rest =>
      match set_subscribe_C2C_notifications api kv.1
              (webhook_endpoint_of d (webhook_id kv.2)) w with
      | (Ok response, w') => response :: subscribe_answers d api rest w'
      | (Raise _, _) => []
      end
  end.

(** The plant identifiers of the topology queries in a log, in order. *)
Definition topology_calls (l : list call) : list string :=
  omap (fun k => match k with Call_get_topology p => Some p | _ => None end) l.

(** How many topology queries of a log are for the plant [p]. *)
Definition topology_queries (p : string) (l : list call) : nat :=
  length (filter (fun q => q = p) (topology_calls l)).

Definition not_topology (k : call) : Prop :=
  match k with Call_get_topology _ => False | _ => True end.

(** The keys of the dictionary [d] are distinct and among [ids]. *)
Definition keyed_within (ids : list string) (d : list (string * thermostat))
  : Prop :=
  NoDup (map fst d) /\ forall k, k ∈ map fst d -> k ∈ ids.

(** [returns Q m]: what [m] returns, when it returns, satisfies [Q]. *)
Definition returns {A} (Q : A -> Prop) (m : M W A) : Prop :=
  forall s a s', m s = (Ok a, s') -> Q a.

Definition creates_no_entry (r : FlowResult) : Prop :=
  match r with CreateEntry _ _ => False | _ => True end.

End Vocabulary.

(** ** A reference implementation of the interfaces

    A small deterministic world on which the steps can be evaluated: the
    URL functions for URLs without percent escapes, a counter as entropy
    source and identifier generator, and a remote API that answers from a
    table. *)
Module Reference.

(** One [name=value] field of a query string; fields without [=] or with
    a blank value are dropped, as [parse_qs] does by default. *)
Definition add_field (m : gmap string (list string)) (field : string)
  : gmap string (list string) :=
  match cut_at "=" field with
  | (k, Some v) =>
      if String.eqb v "" then m
      else <[k := default [] (m !! k) ++ [v]]> m
  | (_, None) => m
  end.

Definition query_fields (q : string) : gmap string (list string) :=
  foldl add_field ∅ (split_on "&" q).

#[export] Instance pylib : PyLib := {|
  urlparse_query u := Ok (query_of u);
  parse_qs := query_fields;
  set_to_list := remove_dups
|}.

#[export] Instance pylib_set_to_list : SetToListSpec pylib.
Proof.
  split.
  - intros l. apply NoDup_remove_dups.
  - intros l x. apply elem_of_remove_dups.
Qed.

#[export] Instance consts : Consts := {|
  AUTH_URL_ENDPOINT := "/authorize";
  CLIENT_ID := "";
  CLIENT_SECRET := "";
  DEFAULT_AUTH_BASE_URL := "https://auth.example";
  DEFAULT_REDIRECT_URI := "https://redirect.example/cb";
  SUBSCRIPTION_KEY := ""
|}.

(** The simulated world. *)
Record sim : Type := mk_sim {
  sim_entries : bool;
  sim_counter : nat;
  sim_healthy : bool;
  sim_plants : plants_response;
  sim_topology : list (string * list topology_device);
  sim_programs : list (string * list program);
  sim_subscribe_status : list (string * Z)
}.

Definition tick (w : sim) : sim :=
  mk_sim (sim_entries w) (S (sim_counter w)) (sim_healthy w) (sim_plants w)
    (sim_topology w) (sim_programs w) (sim_subscribe_status w).

Definition digit (n : nat) : string :=
  String (ascii_of_nat (48 + n mod 10)) EmptyString.

#[export] Instance platform : Platform sim := {|
  hass_config_external_url w := Ok (Some "https://ha.example");
  async_current_entries := sim_entries;
  generate_id w := ("wh" +:+ digit (sim_counter w), tick w);
  random_byte w := (default Byte.x00 (Byte.of_nat (sim_counter w)), tick w);
  exchange_code_for_tokens cid secret uri auth_code w :=
    (Ok ("tok_a", "tok_r", "2025-01-01T00:00:00Z"), w);
  check_api_endpoint_health api w := (Ok (sim_healthy w), w);
  get_plants api w := (Ok (sim_plants w), w);
  get_topology api p w := (Ok (default [] (dict_get p (sim_topology w))), w);
  get_chronothermostat_programlist api p t w :=
    (Ok (default [] (dict_get t (sim_programs w))), w);
  set_subscribe_C2C_notifications api p url w :=
    (Ok (mk_subscribe_response (default 201%Z (dict_get p (sim_subscribe_status w)))
           ("sub-" +:+ digit (sim_counter w))), tick w)
|}.

Definition credentials : flow_data :=
  mk_flow_data "my-client" "my-secret" "my-key" "https://ha.example"
    None None None None.

(** One plant with two devices, the scenario of the specification. *)
Definition home : sim :=
  mk_sim false 1 true
    (mk_plants_response 200 [mk_plant "plant-1"])
    [("plant-1", [mk_topology_device "dev-1" "Living Room";
                  mk_topology_device "dev-2" "Bedroom"])]
    [("dev-1", [mk_program 0 "manual"; mk_program 1 "week"]);
     ("dev-2", [mk_program 2 "night"])]
    [].

(** Two plants with one device each; the listing names the first plant
    twice, and subscriptions for the second plant are refused. *)
Definition two_homes : sim :=
  mk_sim false 1 true
    (mk_plants_response 200
       [mk_plant "plant-1"; mk_plant "plant-2"; mk_plant "plant-1"])
    [("plant-1", [mk_topology_device "dev-1" "Living Room"]);
     ("plant-2", [mk_topology_device "dev-2" "Bedroom"])]
    [("dev-1", [mk_program 0 "manual"; mk_program 1 "week"]);
     ("dev-2", [mk_program 2 "night"])]
    [("plant-2", 500%Z)].

Definition start (w : sim) : state sim := mk_state new_flow w [].

Definition with_health (h : bool) (w : sim) : sim :=
  mk_sim (sim_entries w) (sim_counter w) h (sim_plants w)
    (sim_topology w) (sim_programs w) (sim_subscribe_status w).

Definition with_entries (e : bool) (w : sim) : sim :=
  mk_sim e (sim_counter w) (sim_healthy w) (sim_plants w)
    (sim_topology w) (sim_programs w) (sim_subscribe_status w).

Definition with_plants (r : plants_response) (w : sim) : sim :=
  mk_sim (sim_entries w) (sim_counter w) (sim_healthy w) r
    (sim_topology w) (sim_programs w) (sim_subscribe_status w).

Definition callback : string := "https://x/cb?code=ABC&state=XYZ".

(** The session after the credentials were submitted in world [w]. *)
Definition awaiting_callback (w : sim) : state sim :=
  (async_step_user (Some credentials) (start w)).2.

(** The session after [callback] was pasted as well. *)
Definition selecting_devices (w : sim) : state sim :=
  (async_step_get_authorize_code (Some callback) (awaiting_callback w)).2.

(** The data of the session once [callback] was exchanged for tokens. *)
Definition session_data : flow_data :=
  mk_flow_data "my-client" "my-secret" "my-key" "https://ha.example"
    (Some "ABC") (Some "tok_a") (Some "tok_r") (Some "2025-01-01T00:00:00Z").

Definition tokens : string * string * string :=
  ("tok_a", "tok_r", "2025-01-01T00:00:00Z").

(** The candidate found on [home]. *)
Definition bedroom : thermostat :=
  mk_thermostat "dev-2" "Bedroom" "wh8" [mk_program 2 "night"].

(** The candidates found on [two_homes]. *)
Definition living_room : thermostat :=
  mk_thermostat "dev-1" "Living Room" "wh8" [mk_program 1 "week"].

Definition bedroom_2 : thermostat :=
  mk_thermostat "dev-2" "Bedroom" "wh7" [mk_program 2 "night"].

End Reference.

(** ** More vocabulary: the phases of the calls and the candidates *)

Section Phases.

Context {C : Consts} {L : PyLib} {W : Type} {P : Platform W}.

Definition is_subscribe (k : call) : Prop :=
  match k with Call_set_subscribe_C2C_notifications _ _ => True | _ => False end.

Definition not_subscribe (k : call) : Prop :=
  match k with Call_set_subscribe_C2C_notifications _ _ => False | _ => True end.

(** [keeps_self m]: a run of [m] assigns no attribute of [self]. *)
Definition keeps_self {A} (m : M W A) : Prop :=
  forall s, self (m s).2 = self s.

(** The two calls of one turn of the loop over the devices. *)
Definition device_calls (plantId : string) (thermo : topology_device)
  : list call :=
  [Call_generate_id;
   Call_get_chronothermostat_programlist plantId (device_id thermo)].

(** The candidate built for the device [thermo]. *)
Definition candidate_of (thermo : topology_device) (webhook : string)
    (progs : list program) : thermostat :=
  {| thermo_id := device_id thermo;
     name := device_name thermo;
     webhook_id := webhook;
     programs := progs |}.

(** No candidate of the collection lists a program numbered 0. *)
Definition schedules_only (thermostat_options : list (string * thermostat))
  : Prop :=
  Forall (fun kv => Forall user_schedule (programs kv.2)) thermostat_options.

(** The entry that a step asks the platform to persist, if any. *)
Definition entry_of (r : result FlowResult) : option config_record :=
  match r with
  | Ok (CreateEntry _ record) => Some record
  | _ => None
  end.

(** The session and the log as the callback step leaves them before the
    health check, once the code [c] was exchanged for [tokens] in a world
    that became [w]. *)
Definition after_exchange (s : state W) (d : flow_data) (c : string)
    (tokens : string * string * string) (w : W) : state W :=
  mk_state
    (mk_flow (Some (exchanged d c tokens)) (Some (exchanged d c tokens))
       (_thermostat_options (self s)))
    w
    (calls s ++ [Call_exchange_code_for_tokens (client_id d) (client_secret d)
                   DEFAULT_REDIRECT_URI c]).

(** The same once the health check and the plant listing were made. *)
Definition after_listing (s : state W) (d : flow_data) (c : string)
    (tokens : string * string * string) (w : W) : state W :=
  mk_state
    (mk_flow (Some (exchanged d c tokens)) (Some (exchanged d c tokens))
       (_thermostat_options (self s)))
    w
    (calls s ++ [Call_exchange_code_for_tokens (client_id d) (client_secret d)
                   DEFAULT_REDIRECT_URI c;
                 Call_check_api_endpoint_health; Call_get_plants]).

End Phases.

(** ** A reference world with faults

    The reference world again, with switches that make the platform
    fail: the read of the external URL, the token exchange and the
    subscription requests of given plants can raise, and [urlparse]
    rejects a URL with an opening bracket that is never closed. *)
Module Faults.

Record faulty : Type := mk_faulty {
  inner : Reference.sim;
  external_url_fault : bool;
  exchange_fault : option exn;
  subscribe_faults : list string
}.

Definition on_inner {A} (f : Reference.sim -> A * Reference.sim) (w : faulty)
  : A * faulty :=
  let '(a, i) := f (inner w) in
  (a, mk_faulty i (external_url_fault w) (exchange_fault w) (subscribe_faults w)).

#[export] Instance consts : Consts := Reference.consts.

#[export] Instance pylib : PyLib := {|
  urlparse_query u :=
    if occurs "[" u && negb (occurs "]" u)
    then Raise (ValueError "Invalid IPv6 URL")
    else Ok (query_of u);
  parse_qs := Reference.query_fields;
  set_to_list := remove_dups
|}.

#[export] Instance platform : Platform faulty := {|
  hass_config_external_url w :=
    if external_url_fault w then Raise (AttributeError "external_url")
    else Ok (Some "https://ha.example");
  async_current_entries w := Reference.sim_entries (inner w);
  generate_id := on_inner (@generate_id _ Reference.platform);
  random_byte := on_inner (@random_byte _ Reference.platform);
  exchange_code_for_tokens cid secret uri auth_code w :=
    match exchange_fault w with
    | Some e => (Raise e, w)
    | None =>
        on_inner (@exchange_code_for_tokens _ Reference.platform
                    cid secret uri auth_code) w
    end;
  check_api_endpoint_health api :=
    on_inner (@check_api_endpoint_health _ Reference.platform api);
  get_plants api := on_inner (@get_plants _ Reference.platform api);
  get_topology api p := on_inner (@get_topology _ Reference.platform api p);
  get_chronothermostat_programlist api p t :=
    on_inner (@get_chronothermostat_programlist _ Reference.platform api p t);
  set_subscribe_C2C_notifications api p url w :=
    if bool_decide (p ∈ subscribe_faults w)
    then (Raise (OtherError "ClientError"), w)
    else on_inner (@set_subscribe_C2C_notifications _ Reference.platform
                     api p url) w
|}.

(** The world [i] without faults. *)
Definition sound (i : Reference.sim) : faulty := mk_faulty i false None [].

Definition start (w : faulty) : state faulty := mk_state new_flow w [].

(** The session after the credentials were submitted in world [w]. *)
Definition awaiting_callback (w : faulty) : state faulty :=
  (async_step_user (Some Reference.credentials) (start w)).2.

(** The session after [Reference.callback] was pasted as well. *)
Definition selecting_devices (w : faulty) : state faulty :=
  (async_step_get_authorize_code (Some Reference.callback)
     (awaiting_callback w)).2.

(** The same session in a world where the requests for [plants] raise
    from now on. *)
Definition then_refusing (plants : list string) (s : state faulty)
  : state faulty :=
  mk_state (self s)
    (mk_faulty (inner (world s)) (external_url_fault (world s))
       (exchange_fault (world s)) plants)
    (calls s).

(** The world of [Reference.home] where the external URL of the platform
    cannot be read. *)
Definition no_external_url : faulty :=
  mk_faulty Reference.home true None [].

(** The same world where the token endpoint rejects the code with [e]. *)
Definition rejecting (e : exn) : faulty :=
  mk_faulty Reference.home false (Some e) [].

(** The sessions that wait for the callback in these worlds. *)
Definition awaiting_sound : state faulty :=
  Eval vm_compute in awaiting_callback (sound Reference.home).

Definition awaiting_invalid_grant : state faulty :=
  Eval vm_compute in awaiting_callback (rejecting (ValueError "invalid_grant")).

Definition awaiting_client_error : state faulty :=
  Eval vm_compute in awaiting_callback (rejecting (OtherError "ClientError")).

(** The session that discovered the candidates of [Reference.two_homes],
    in a world where the requests for [plant-1] raise from now on. *)
Definition refusing_plant_1 : state faulty :=
  Eval vm_compute in
    then_refusing ["plant-1"] (selecting_devices (sound Reference.two_homes)).

End Faults.

(** ** More sessions on the reference world *)
Module MoreWorlds.

Import Reference.

(** A session that holds the credentials while an entry is configured. *)
Definition configured_meanwhile : state sim :=
  mk_state (mk_flow (Some credentials) None None) (with_entries true home) [].

Definition other_secret : flow_data :=
  mk_flow_data "my-client" "other-secret" "other-key" "https://other.example"
    None None None None.

(** A session with its tokens and API object and no candidate yet, in
    the world [w]. *)
Definition before_devices (w : sim) : state sim :=
  mk_state (mk_flow (Some session_data) (Some session_data) None) w [].

Definition no_plant : sim := with_plants (mk_plants_response 200 []) home.

(** The session that discovered the candidates of [two_homes], in a world
    where an entry was configured meanwhile. *)
Definition configured_while_selecting : state sim :=
  mk_state (self (selecting_devices two_homes))
    (with_entries true (world (selecting_devices two_homes)))
    (calls (selecting_devices two_homes)).

End MoreWorlds.

(** * Properties *)

(** ** The monad *)

Section MonadFacts.

Context {W : Type}.

Lemma bind_Ok {A B} (m : M W A) (k : A -> M W B) s a s' :
  m s = (Ok a, s') -> bind m k s = k a s'.
Proof. unfold bind. intros ->. reflexivity. Qed.

Lemma bind_Raise {A B} (m : M W A) (k : A -> M W B) s e s' :
  m s = (Raise e, s') -> bind m k s = (Raise e, s').
Proof. unfold bind. intros ->. reflexivity. Qed.

Lemma bind_same_start {A B} (m1 m2 : M W A) (k : A -> M W B) s :
  m1 s = m2 s -> bind m1 k s = bind m2 k s.
Proof. unfold bind. intros ->. reflexivity. Qed.

Lemma get_attr_Some {A} attr (proj : flow -> option A) (s : state W) a :
  proj (self s) = Some a -> get_attr attr proj s = (Ok a, s).
Proof. unfold get_attr. intros ->. reflexivity. Qed.

Lemma get_attr_None {A} attr (proj : flow -> option A) (s : state W) :
  proj (self s) = None -> get_attr attr proj s = (Raise (AttributeError attr), s).
Proof. unfold get_attr. intros ->. reflexivity. Qed.

Lemma only_ret {A} F (a : A) : only F (ret a : M W A).
Proof. intros s. exists []. simpl. by rewrite app_nil_r. Qed.

Lemma only_raise {A} F e : only F (@raise W A e).
Proof. intros s. exists []. simpl. by rewrite app_nil_r. Qed.

Lemma only_bind {A B} F (m : M W A) (k : A -> M W B) :
  only F m -> (forall a, only F (k a)) -> only F (bind m k).
Proof.
  intros Hm Hk s. destruct (Hm s) as (n1 & H1 & F1). unfold bind.
  destruct (m s) as [[a|e] s1] eqn:E; simpl in *.
  - destruct (Hk a s1) as (n2 & H2 & F2). exists (n1 ++ n2).
    rewrite H2, H1, app_assoc. split; [done|]. by apply Forall_app.
  - by exists n1.
Qed.

Lemma only_external {A} (F : call -> Prop) c (f : W -> result A * W) :
  F c -> only F (external c f).
Proof.
  intros Hc s. exists [c]. unfold external.
  destruct (f (world s)). simpl. split; [done|]. by constructor.
Qed.

Lemma only_get_attr {A} F attr (proj : flow -> option A) :
  only F (@get_attr W A attr proj).
Proof.
  intros s. exists []. unfold get_attr.
  destruct (proj (self s)); simpl; by rewrite app_nil_r.
Qed.

Lemma only_set_self F f : only F (@set_self W f).
Proof. intros s. exists []. simpl. by rewrite app_nil_r. Qed.

Lemma only_observe {A} F (f : W -> A) : only F (observe f).
Proof. intros s. exists []. simpl. by rewrite app_nil_r. Qed.

Lemma only_item {A} F key (v : option A) : only F (@item W A key v).
Proof. destruct v; [apply only_ret | apply only_raise]. Qed.

Lemma only_foldM {A B} F (f : B -> A -> M W B) (l : list A) :
  (forall b a, only F (f b a)) -> forall b, only F (foldM f l b).
Proof.
  intros Hf. induction l as [|x l IH]; intros b; simpl.
  - apply only_ret.
  - apply only_bind; [apply Hf | apply IH].
Qed.

Lemma returns_ret {A} (Q : A -> Prop) (a : A) : Q a -> returns Q (ret a : M W A).
Proof. intros Ha s a' s' [= <- _]. exact Ha. Qed.

Lemma returns_raise {A} (Q : A -> Prop) e : returns Q (@raise W A e).
Proof. intros s a s' H. discriminate H. Qed.

Lemma returns_bind {A B} (Q : B -> Prop) (m : M W A) (k : A -> M W B) :
  (forall a, returns Q (k a)) -> returns Q (bind m k).
Proof.
  intros Hk s b s'. unfold bind.
  destruct (m s) as [[a|e] s1]; [apply Hk | discriminate].
Qed.

Lemma returns_try_except {A} (Q : A -> Prop) (body : M W A) handler :
  returns Q body -> (forall e, returns Q (handler e)) ->
  returns Q (try_except_ValueError body handler).
Proof.
  intros Hb Hh s a s'. unfold try_except_ValueError.
  destruct (body s) as [[a1|e] s1] eqn:E.
  - intros [= <- <-]. by apply (Hb s a1 s1).
  - destruct (is_ValueError e); [apply Hh | discriminate].
Qed.

End MonadFacts.

(** ** Program Filter *)

Section ProgramFilter.

Context {W : Type} {P : Platform W}.

Lemma sublist_into_filter {A} (Q : A -> Prop) `{!forall x, Decision (Q x)}
    (l big : list A) :
  sublist l big -> Forall Q l -> sublist l (filter Q big).
Proof.
  induction 1 as [|x l1 l2 _ IH|x l1 l2 _ IH]; intros HQ.
  - constructor.
  - apply Forall_cons in HQ as [Hx HQ].
    rewrite filter_cons_True by done. constructor. by apply IH.
  - rewrite filter_cons. destruct (decide (Q x)).
    + apply sublist_cons. by apply IH.
    + by apply IH.
Qed.

Lemma filter_all {A} (Q : A -> Prop) `{!forall x, Decision (Q x)} (l : list A) :
  Forall Q l -> filter Q l = l.
Proof.
  induction 1 as [|x l Hx _ IH]; [done|].
  by rewrite filter_cons_True, IH.
Qed.

Lemma filter_none {A} (Q : A -> Prop) `{!forall x, Decision (Q x)} (l : list A) :
  Forall (fun x => ¬ Q x) l -> filter Q l = [].
Proof.
  induction 1 as [|x l Hx _ IH]; [done|].
  by rewrite filter_cons_False.
Qed.

(** What the step returns when the API answers with [progs]. *)
Lemma get_programs_from_api_run api plantId topology_id (s : state W) r w' :
  bticino_api (self s) = Some api ->
  get_chronothermostat_programlist api plantId topology_id (world s) = (r, w') ->
  get_programs_from_api plantId topology_id s
  = (match r with
     | Ok progs => Ok (filter user_schedule progs)
     | Raise e => Raise e
     end,
     mk_state (self s) w'
       (calls s ++ [Call_get_chronothermostat_programlist plantId topology_id])).
Proof.
  intros Hapi Hcall. unfold get_programs_from_api.
  rewrite (bind_Ok _ _ _ _ _ (get_attr_Some _ _ _ _ Hapi)).
  unfold bind, external. rewrite Hcall. by destruct r.
Qed.

(** C5.  Whatever list the remote API returns, the Program Filter returns
    the programs whose number is not 0 in their original order: the result
    is a subsequence of the list, holds no program numbered 0, and contains
    every subsequence of the list that holds none.  With one program
    numbered 0 among N others the result is those N programs, and when
    every program is numbered 0 (or there is none) the result is the empty
    list, which is returned, not raised. *)
Theorem C5_program_filter api plantId topology_id (s : state W) progs w' :
  bticino_api (self s) = Some api ->
  get_chronothermostat_programlist api plantId topology_id (world s)
    = (Ok progs, w') ->
  exists kept,
    (get_programs_from_api plantId topology_id s).1 = Ok kept
    /\ sublist kept progs
    /\ Forall user_schedule kept
    /\ (forall l, sublist l progs -> Forall user_schedule l -> sublist l kept)
    /\ (forall before zero after,
          progs = before ++ zero :: after -> number zero = 0%Z ->
          Forall user_schedule (before ++ after) ->
          kept = before ++ after /\ length kept = length before + length after)
    /\ (Forall (fun p => number p = 0%Z) progs -> kept = []).
Proof.
  intros Hapi Hcall. exists (filter user_schedule progs).
  rewrite (get_programs_from_api_run _ _ _ _ _ _ Hapi Hcall). simpl.
  split; [done|]. split; [apply sublist_filter|].
  split. { apply Forall_forall. intros p Hp. by apply list_elem_of_filter in Hp as [? _]. }
  split. { intros l. apply sublist_into_filter. }
  split.
  - intros before zero after -> Hz Hall.
    apply Forall_app in Hall as [Hb Ha].
    rewrite filter_app, filter_cons_False by (unfold user_schedule; tauto).
    rewrite !filter_all by done. by rewrite length_app.
  - intros Hall. apply filter_none.
    eapply Forall_impl; [exact Hall|]. unfold user_schedule. tauto.
Qed.

End ProgramFilter.

(** ** The steps, run *)

Section StepFacts.

Context {C : Consts} {L : PyLib} {W : Type} {P : Platform W}.

Lemma get_authorization_url_run (d : flow_data) (s : state W) :
  get_authorization_url d s
  = (Ok (authorization_url_of (client_id d) (hex (urandom 16 (world s)).1)),
     mk_state (self s) (urandom 16 (world s)).2 (calls s ++ [Call_token_hex 16])).
Proof.
  unfold get_authorization_url, bind, token_hex, external.
  by destruct (urandom 16 (world s)).
Qed.

Lemma async_step_user_conflict (user_input : option flow_data) (s : state W) :
  async_current_entries (world s) = true ->
  async_step_user user_input s = (Ok (Abort "single_instance_allowed"), s).
Proof.
  intros He. unfold async_step_user, bind, observe. by rewrite He.
Qed.

Lemma async_step_user_submit (d : flow_data) (s : state W) :
  async_current_entries (world s) = false ->
  async_step_user (Some d) s
  = (Ok (callback_form (client_id d) (hex (urandom 16 (world s)).1)),
     mk_state (mk_flow (Some d) (bticino_api (self s)) (_thermostat_options (self s)))
       (urandom 16 (world s)).2 (calls s ++ [Call_token_hex 16])).
Proof.
  intros He. unfold async_step_user, bind at 1 2, observe. rewrite He.
  unfold bind at 1. unfold set_self at 1. unfold bind.
  by rewrite get_authorization_url_run.
Qed.

Lemma reenter_user_step_run (d : flow_data) (s : state W) :
  data (self s) = Some d ->
  reenter_user_step s = async_step_user (Some d) s.
Proof.
  intros Hd. unfold reenter_user_step.
  by rewrite (bind_Ok _ _ _ _ _ (get_attr_Some _ _ _ _ Hd)).
Qed.

(** A parameter that the query lacks reads as the empty text. *)
Lemma query_param_missing (query_params : gmap string (list string)) key :
  query_params !! key = None -> query_param query_params key = [""].
Proof. unfold query_param. by intros ->. Qed.

Lemma callback_code_run url (s : state W) q c lc st ls :
  urlparse_query url = Ok q ->
  query_param (parse_qs q) "code" = c :: lc ->
  query_param (parse_qs q) "state" = st :: ls ->
  callback_code url s
  = (if String.eqb c "" || String.eqb st ""
     then Raise (ValueError invalid_callback_message) else Ok c, s).
Proof.
  intros Hq Hc Hs. unfold callback_code, bind, lift. rewrite Hq, Hc, Hs.
  simpl. by destruct (String.eqb c "" || String.eqb st "").
Qed.

(** The body of the [try] up to the construction of the API object, when
    the callback carries a code and the exchange returns tokens. *)
Lemma authorize_code_attempt_exchange url (s : state W) d q c lc st ls tokens w1 :
  data (self s) = Some d ->
  urlparse_query url = Ok q ->
  query_param (parse_qs q) "code" = c :: lc ->
  query_param (parse_qs q) "state" = st :: ls ->
  c ≠ "" -> st ≠ "" ->
  exchange_code_for_tokens (client_id d) (client_secret d)
    DEFAULT_REDIRECT_URI c (world s) = (Ok tokens, w1) ->
  authorize_code_attempt url s
  = discovery_form
      (mk_state
         (mk_flow (Some (exchanged d c tokens)) (Some (exchanged d c tokens))
            (_thermostat_options (self s)))
         w1
         (calls s ++ [Call_exchange_code_for_tokens (client_id d)
                        (client_secret d) DEFAULT_REDIRECT_URI c])).
Proof.
  intros Hd Hq Hc Hs Hc0 Hs0 Hx. unfold authorize_code_attempt.
  rewrite (bind_Ok _ _ s c s).
  2:{ rewrite (callback_code_run _ _ _ _ _ _ _ Hq Hc Hs).
      apply String.eqb_neq in Hc0, Hs0. by rewrite Hc0, Hs0. }
  rewrite (bind_Ok _ _ _ _ _ (get_attr_Some _ _ _ _ Hd)).
  unfold bind at 1. unfold set_self at 1.
  unfold bind at 1. unfold get_attr at 1. simpl.
  unfold bind at 1. unfold external at 1. simpl. rewrite Hx.
  reflexivity.
Qed.

(** The step is the body of the [try] whenever that body does not raise
    a [ValueError]. *)
Lemma async_step_get_authorize_code_no_ValueError url (s : state W) :
  (forall e, (authorize_code_attempt url s).1 = Raise e -> is_ValueError e = false) ->
  async_step_get_authorize_code (Some url) s = authorize_code_attempt url s.
Proof.
  intros H. simpl. unfold try_except_ValueError.
  destruct (authorize_code_attempt url s) as [[r|e] s'] eqn:E; [done|].
  by rewrite (H e eq_refl).
Qed.

End StepFacts.

(** ** The credentials step and the callback step *)

Section Steps.

Context {C : Consts} {L : PyLib} {W : Type} {P : Platform W}.

(** The first two steps never return an entry to persist: only the
    selection step does, and the host platform reaches it only through
    the forms of the steps before it. *)
Lemma async_step_user_creates_no_entry user_input :
  returns creates_no_entry (async_step_user user_input).
Proof.
  unfold async_step_user.
  apply returns_bind. intros u. apply returns_bind. intros [|].
  - by apply returns_ret.
  - destruct user_input as [d|]; [|by apply returns_ret].
    apply returns_bind. intros _. apply returns_bind. intros url.
    by apply returns_ret.
Qed.

Lemma async_step_get_authorize_code_creates_no_entry user_input :
  returns creates_no_entry (async_step_get_authorize_code user_input).
Proof.
  assert (Hre : returns creates_no_entry reenter_user_step).
  { unfold reenter_user_step. apply returns_bind. intros d.
    apply async_step_user_creates_no_entry. }
  destruct user_input as [url|]; [|exact Hre]. simpl.
  apply returns_try_except; [|by intros _].
  unfold authorize_code_attempt.
  do 7 (apply returns_bind; intros ?).
  unfold discovery_form.
  do 2 (apply returns_bind; intros ?).
  destruct (negb _); [by apply returns_ret|].
  do 4 (apply returns_bind; intros ?).
  by apply returns_ret.
Qed.

(** C8.  When a configuration entry exists as the user step is entered,
    the step returns the abort [single_instance_allowed] whatever its
    input, and leaves the session, the outside world and the log of calls
    as they were: no network call was made, no token drawn and no form
    built. *)
Theorem C8_single_instance_abort (user_input : option flow_data) (s : state W) :
  async_current_entries (world s) = true ->
  (async_step_user user_input s).1 = Ok (Abort "single_instance_allowed")
  /\ (async_step_user user_input s).2 = s
  /\ calls (async_step_user user_input s).2 = calls s.
Proof.
  intros He. by rewrite (async_step_user_conflict _ _ He).
Qed.

(** C2, as the code has it.  A pasted URL whose query gives an empty
    code or an empty state (a missing parameter reads as the empty default)
    makes the body of the [try] raise [ValueError] before anything was
    stored or called.  The step never raises: its handler does what the
    credentials step does on the stored credentials.  With no entry
    configured that is the callback form again, whose message is the newly
    composed authorization text and says nothing of the failure, with the
    session unchanged and nothing sent over the network; with an entry
    configured it is the abort [single_instance_allowed]. *)
Theorem C2_invalid_callback_handled url (s : state W) d q c lc st ls :
  data (self s) = Some d ->
  urlparse_query url = Ok q ->
  query_param (parse_qs q) "code" = c :: lc ->
  query_param (parse_qs q) "state" = st :: ls ->
  c = "" \/ st = "" ->
  authorize_code_attempt url s = (Raise (ValueError invalid_callback_message), s)
  /\ async_step_get_authorize_code (Some url) s = async_step_user (Some d) s
  /\ (exists r, (async_step_get_authorize_code (Some url) s).1 = Ok r)
  /\ (async_current_entries (world s) = false ->
      (async_step_get_authorize_code (Some url) s).1
      = Ok (callback_form (client_id d) (hex (urandom 16 (world s)).1))
      /\ self (async_step_get_authorize_code (Some url) s).2 = self s
      /\ calls (async_step_get_authorize_code (Some url) s).2
         = calls s ++ [Call_token_hex 16])
  /\ (async_current_entries (world s) = true ->
      async_step_get_authorize_code (Some url) s
      = (Ok (Abort "single_instance_allowed"), s)).
Proof.
  intros Hd Hq Hc Hs Hempty.
  assert (Hraise : authorize_code_attempt url s
                   = (Raise (ValueError invalid_callback_message), s)).
  { unfold authorize_code_attempt.
    apply bind_Raise. rewrite (callback_code_run _ _ _ _ _ _ _ Hq Hc Hs).
    destruct Hempty as [-> | ->]; simpl; [done|].
    by rewrite orb_true_r. }
  assert (Hstep : async_step_get_authorize_code (Some url) s
                  = async_step_user (Some d) s).
  { simpl. unfold try_except_ValueError. rewrite Hraise. simpl.
    by apply reenter_user_step_run. }
  split; [done|]. split; [done|]. rewrite Hstep. split; [|split].
  - destruct (async_current_entries (world s)) eqn:He.
    + rewrite (async_step_user_conflict _ _ He). by eexists.
    + rewrite (async_step_user_submit _ _ He). by eexists.
  - intros He. rewrite (async_step_user_submit _ _ He). simpl. repeat split.
    destruct s as [[dd api opts] w cs]. simpl in *. by subst.
  - intros He. by apply async_step_user_conflict.
Qed.

(** C3, as the code has it.  When the callback carries a code and a state,
    the exchange returns tokens and the health check answers false, the
    step returns the abort whose reason is the text [Auth Failed!]; the
    exchange and the health check are the only calls it made, so no plant
    listing, topology, program or subscription call follows. *)
Theorem C3_health_check_abort url (s : state W) d q c lc st ls tokens w1 w2 :
  data (self s) = Some d ->
  urlparse_query url = Ok q ->
  query_param (parse_qs q) "code" = c :: lc ->
  query_param (parse_qs q) "state" = st :: ls ->
  c ≠ "" -> st ≠ "" ->
  exchange_code_for_tokens (client_id d) (client_secret d)
    DEFAULT_REDIRECT_URI c (world s) = (Ok tokens, w1) ->
  check_api_endpoint_health (exchanged d c tokens) w1 = (Ok false, w2) ->
  (async_step_get_authorize_code (Some url) s).1 = Ok (Abort "Auth Failed!")
  /\ exists new,
       calls (async_step_get_authorize_code (Some url) s).2 = calls s ++ new
       /\ new = [Call_exchange_code_for_tokens (client_id d) (client_secret d)
                   DEFAULT_REDIRECT_URI c;
                 Call_check_api_endpoint_health]
       /\ Forall (fun k => is_device_api k = false) new.
Proof.
  intros Hd Hq Hc Hs Hc0 Hs0 Hx Hh.
  assert (E : authorize_code_attempt url s
              = (Ok (Abort "Auth Failed!"),
                 mk_state
                   (mk_flow (Some (exchanged d c tokens))
                      (Some (exchanged d c tokens)) (_thermostat_options (self s)))
                   w2
                   ((calls s ++ [Call_exchange_code_for_tokens (client_id d)
                                   (client_secret d) DEFAULT_REDIRECT_URI c])
                    ++ [Call_check_api_endpoint_health]))).
  { rewrite (authorize_code_attempt_exchange _ _ _ _ _ _ _ _ _ _
               Hd Hq Hc Hs Hc0 Hs0 Hx).
    unfold discovery_form, bind, get_attr, external. simpl. by rewrite Hh. }
  rewrite async_step_get_authorize_code_no_ValueError
    by (rewrite E; discriminate).
  rewrite E. simpl. split; [done|]. eexists. split.
  - by rewrite <- app_assoc.
  - split; [done|]. by repeat constructor.
Qed.

(** C10.  When the callback carries a code and a state, the exchange
    returns tokens, the health check answers true and the plant listing
    comes back with a status other than 200, the step raises
    [UnboundLocalError] (a [NameError]) for [thermostat_options]: it is not
    a [ValueError], so the handler of the step does not catch it, and no
    form and no abort is returned. *)
Theorem C10_unbound_thermostat_options url (s : state W) d q c lc st ls
    tokens w1 w2 plants w3 :
  data (self s) = Some d ->
  urlparse_query url = Ok q ->
  query_param (parse_qs q) "code" = c :: lc ->
  query_param (parse_qs q) "state" = st :: ls ->
  c ≠ "" -> st ≠ "" ->
  exchange_code_for_tokens (client_id d) (client_secret d)
    DEFAULT_REDIRECT_URI c (world s) = (Ok tokens, w1) ->
  check_api_endpoint_health (exchanged d c tokens) w1 = (Ok true, w2) ->
  get_plants (exchanged d c tokens) w2 = (Ok plants, w3) ->
  plants_status_code plants ≠ 200%Z ->
  exists e,
    (async_step_get_authorize_code (Some url) s).1 = Raise e
    /\ e = UnboundLocalError "thermostat_options"
    /\ is_NameError e = true
    /\ _thermostat_options (self (async_step_get_authorize_code (Some url) s).2)
       = _thermostat_options (self s)
    /\ calls (async_step_get_authorize_code (Some url) s).2
       = calls s ++ [Call_exchange_code_for_tokens (client_id d) (client_secret d)
                       DEFAULT_REDIRECT_URI c;
                     Call_check_api_endpoint_health; Call_get_plants].
Proof.
  intros Hd Hq Hc Hs Hc0 Hs0 Hx Hh Hp Hstatus.
  apply Z.eqb_neq in Hstatus.
  assert (E : authorize_code_attempt url s
              = (Raise (UnboundLocalError "thermostat_options"),
                 mk_state
                   (mk_flow (Some (exchanged d c tokens))
                      (Some (exchanged d c tokens)) (_thermostat_options (self s)))
                   w3
                   (((calls s ++ [Call_exchange_code_for_tokens (client_id d)
                                    (client_secret d) DEFAULT_REDIRECT_URI c])
                     ++ [Call_check_api_endpoint_health]) ++ [Call_get_plants]))).
  { rewrite (authorize_code_attempt_exchange _ _ _ _ _ _ _ _ _ _
               Hd Hq Hc Hs Hc0 Hs0 Hx).
    unfold discovery_form, bind, get_attr, external. simpl. rewrite Hh. simpl.
    rewrite Hp, Hstatus. reflexivity. }
  rewrite async_step_get_authorize_code_no_ValueError
    by (rewrite E; simpl; by intros ? [= <-]).
  rewrite E. simpl. eexists. repeat split. by rewrite <- !app_assoc.
Qed.

(** C9.  The flow keeps no trace of the token it generated (the session
    after the credentials step holds the credentials and nothing else
    new), and the state of a callback is only tested for emptiness: two
    pasted URLs that give the same code and two non-empty states, equal or
    not, take the step to the same result, the same session, the same
    world and the same calls. *)
Theorem C9_state_never_compared url1 url2 (s : state W) q1 q2 st1 ls1 st2 ls2 :
  urlparse_query url1 = Ok q1 ->
  urlparse_query url2 = Ok q2 ->
  query_param (parse_qs q1) "code" = query_param (parse_qs q2) "code" ->
  query_param (parse_qs q1) "state" = st1 :: ls1 ->
  query_param (parse_qs q2) "state" = st2 :: ls2 ->
  st1 ≠ "" -> st2 ≠ "" ->
  async_step_get_authorize_code (Some url1) s
  = async_step_get_authorize_code (Some url2) s
  /\ forall d s0,
       async_current_entries (world s0) = false ->
       self (async_step_user (Some d) s0).2
       = mk_flow (Some d) (bticino_api (self s0)) (_thermostat_options (self s0)).
Proof.
  intros Hq1 Hq2 Hcode Hs1 Hs2 Hn1 Hn2. split.
  - assert (Hcb : callback_code url1 s = callback_code url2 s).
    { unfold callback_code, bind, lift.
      rewrite Hq1, Hq2, Hcode, Hs1, Hs2. simpl.
      apply String.eqb_neq in Hn1, Hn2. by rewrite Hn1, Hn2. }
    assert (Hbody : authorize_code_attempt url1 s = authorize_code_attempt url2 s).
    { unfold authorize_code_attempt. by apply bind_same_start. }
    simpl. unfold try_except_ValueError. by rewrite Hbody.
  - intros d s0 He. by rewrite (async_step_user_submit _ _ He).
Qed.

End Steps.

(** ** Subscription Manager and the selection step *)

Section Subscription.

Context {C : Consts} {L : PyLib} {W : Type} {P : Platform W}.

Lemma add_c2c_subscription_run plantId webhook (s : state W) d api r w' :
  data (self s) = Some d ->
  bticino_api (self s) = Some api ->
  set_subscribe_C2C_notifications api plantId (webhook_endpoint_of d webhook)
    (world s) = (r, w') ->
  add_c2c_subscription plantId webhook s
  = (match r with
     | Ok response => Ok (subscription_of response)
     | Raise e => Raise e
     end,
     mk_state (self s) w'
       (calls s ++ [Call_set_subscribe_C2C_notifications plantId
                      (webhook_endpoint_of d webhook)])).
Proof.
  intros Hd Hapi Hcall. unfold add_c2c_subscription.
  rewrite (bind_Ok _ _ _ _ _ (get_attr_Some _ _ _ _ Hd)).
  rewrite (bind_Ok _ _ _ _ _ (get_attr_Some _ _ _ _ Hapi)).
  unfold bind, external. fold (webhook_endpoint_of d webhook). rewrite Hcall.
  destruct r as [response|e]; [|done].
  unfold subscription_of. by destruct (Z.eqb (status_code response) 201).
Qed.

(** The comprehension of lines 225-236 over the chosen candidates, when
    the API answers every request (with whatever status). *)
Lemma subscribe_each_run (d api : flow_data) (chosen : list (string * thermostat)) :
  (forall p url w, exists response w',
      set_subscribe_C2C_notifications api p url w = (Ok response, w')) ->
  forall s : state W,
    data (self s) = Some d ->
    bticino_api (self s) = Some api ->
    exists s',
      mapM (fun kv : string * thermostat =>
              sub <- add_c2c_subscription kv.1 (webhook_id kv.2) ;;
              ret (kv.1, mk_selected kv.2 sub)) chosen s
      = (Ok (zip_with selected_entry chosen
               (subscribe_answers d api chosen (world s))), s')
      /\ length (subscribe_answers d api chosen (world s)) = length chosen
      /\ self s' = self s
      /\ calls s' = calls s ++ map (subscribe_call d) chosen.
Proof.
  intros Hans. induction chosen as [|kv chosen IH]; intros s Hd Hapi.
  - exists s. simpl. by rewrite app_nil_r.
  - destruct (Hans kv.1 (webhook_endpoint_of d (webhook_id kv.2)) (world s))
      as (response & w' & Hcall).
    pose proof (add_c2c_subscription_run _ _ _ _ _ _ _ Hd Hapi Hcall) as Hrun.
    simpl in Hrun. simpl mapM. unfold bind at 1. unfold bind at 1.
    rewrite Hrun. unfold ret at 1.
    set (s1 := mk_state (self s) w' _).
    destruct (IH s1 Hd Hapi) as (s' & Hmap & Hlen & Hself & Hcalls).
    unfold bind at 1. rewrite Hmap.
    simpl subscribe_answers. rewrite Hcall.
    subst s1. simpl in Hlen, Hself, Hcalls.
    exists s'. split; [reflexivity|]. split; [simpl; by rewrite Hlen|].
    split; [done|].
    rewrite Hcalls. simpl. by rewrite <- app_assoc.
Qed.

(** C4.  [add_c2c_subscription] asks for deliveries at
    [external_url + "/api/webhook/" + webhook_id]; it returns the
    [subscriptionId] of a response with status 201 and [None] for any other
    status, raising in neither case.  When the API answers every request,
    the selection step makes one request per chosen candidate, in order and
    whatever the earlier answers were, and returns the entry to persist,
    which lists every chosen candidate with the outcome of its own request:
    the [subscriptionId] where the status was 201 and [None] where it was
    not. *)
Theorem C4_subscription_failure_is_recorded (s : state W) d api
    thermostat_options tok rtok expires (user_input : list string) :
  data (self s) = Some d ->
  bticino_api (self s) = Some api ->
  _thermostat_options (self s) = Some thermostat_options ->
  access_token d = Some tok ->
  refresh_token d = Some rtok ->
  access_token_expires_on d = Some expires ->
  (forall p url w, exists response w',
      set_subscribe_C2C_notifications api p url w = (Ok response, w')) ->
  (forall plantId webhook response w',
      set_subscribe_C2C_notifications api plantId
        ((external_url d +:+ "/api/webhook/") +:+ webhook) (world s)
      = (Ok response, w') ->
      add_c2c_subscription plantId webhook s
      = (Ok (if Z.eqb (status_code response) 201
             then Some (text_subscriptionId response) else None),
         mk_state (self s) w'
           (calls s ++ [Call_set_subscribe_C2C_notifications plantId
                          ((external_url d +:+ "/api/webhook/") +:+ webhook)])))
  /\ exists chosen answers s',
       chosen = filter (fun kv : string * thermostat => name kv.2 ∈ user_input)
                  thermostat_options
       /\ answers = subscribe_answers d api chosen (world s)
       /\ length answers = length chosen
       /\ async_step_select_thermostats user_input s
          = (Ok (CreateEntry "Bticino X8000"
                   (mk_config_record (client_id d) (client_secret d)
                      (subscription_key d) (external_url d) tok rtok expires
                      (zip_with selected_entry chosen answers))),
             s')
       /\ calls s' = calls s ++ map (subscribe_call d) chosen.
Proof.
  intros Hd Hapi Hopts Htok Hrtok Hexp Hans. split.
  - intros plantId webhook response w' Hcall.
    by rewrite (add_c2c_subscription_run _ _ _ _ _ _ _ Hd Hapi Hcall).
  - destruct (subscribe_each_run d api
                (filter (fun kv : string * thermostat => name kv.2 ∈ user_input)
                   thermostat_options) Hans s Hd Hapi)
      as (s' & Hmap & Hlen & Hself & Hcalls).
    eexists _, _, s'. split; [reflexivity|]. split; [reflexivity|].
    split; [done|]. split; [|done].
    unfold async_step_select_thermostats.
    rewrite (bind_Ok _ _ _ _ _ (get_attr_Some _ _ _ _ Hopts)).
    rewrite (bind_Ok _ _ _ _ _ Hmap).
    rewrite <- Hself in Hd.
    rewrite (bind_Ok _ _ _ _ _ (get_attr_Some _ _ _ _ Hd)).
    by rewrite Htok, Hrtok, Hexp.
Qed.

End Subscription.

(** ** Device Discovery *)

Section Discovery.

Context {C : Consts} {L : PyLib} {W : Type} {P : Platform W}.

Lemma topology_calls_app l1 l2 :
  topology_calls (l1 ++ l2) = topology_calls l1 ++ topology_calls l2.
Proof. apply omap_app. Qed.

Lemma topology_calls_none l : Forall not_topology l -> topology_calls l = [].
Proof.
  induction 1 as [|k l Hk _ IH]; [done|].
  destruct k; simpl in *; try done.
Qed.

Lemma add_thermostat_option_quiet p opts thermo :
  only not_topology (add_thermostat_option p opts thermo).
Proof.
  unfold add_thermostat_option.
  apply only_bind; [by apply only_external|]. intros webhook.
  apply only_bind; [|intros; apply only_ret].
  unfold get_programs_from_api.
  apply only_bind; [apply only_get_attr|]. intros api.
  apply only_bind; [by apply only_external | intros; apply only_ret].
Qed.

(** One turn of the loop over the plants queries the topology of its
    plant once, unless it raises before the query. *)
Lemma add_plant_options_log opts p (s : state W) :
  exists new,
    calls (add_plant_options opts p s).2 = calls s ++ new
    /\ topology_calls new `prefix_of` [p]
    /\ (forall r, (add_plant_options opts p s).1 = Ok r -> topology_calls new = [p]).
Proof.
  unfold add_plant_options.
  destruct (bticino_api (self s)) as [api|] eqn:Hapi.
  2:{ rewrite (bind_Raise _ _ _ _ _ (get_attr_None _ _ _ Hapi)).
      exists []. simpl. rewrite app_nil_r. split; [done|].
      split; [apply prefix_nil | intros r Hr; discriminate Hr]. }
  rewrite (bind_Ok _ _ _ _ _ (get_attr_Some _ _ _ _ Hapi)).
  unfold bind, external.
  destruct (get_topology api p (world s)) as [[topologies|e] w1].
  2:{ exists [Call_get_topology p]. simpl. split; [done|].
      split; [done | intros r Hr; discriminate Hr]. }
  set (s1 := mk_state (self s) w1 (calls s ++ [Call_get_topology p])).
  destruct (only_foldM not_topology (add_thermostat_option p) topologies
              (add_thermostat_option_quiet p) opts s1) as (n & Hn & Fn).
  exists (Call_get_topology p :: n). split.
  { rewrite Hn. subst s1. simpl. by rewrite <- app_assoc. }
  assert (Ht : topology_calls (Call_get_topology p :: n) = [p]).
  { simpl. by rewrite (topology_calls_none _ Fn). }
  rewrite Ht. by split.
Qed.

(** The loop over the plants queries the topologies in the order of the
    list it runs over: all of them when it returns, and a first part of
    them when a call raises. *)
Lemma plants_loop_log plant_ids : forall opts (s : state W),
  exists new,
    calls (foldM add_plant_options plant_ids opts s).2 = calls s ++ new
    /\ topology_calls new `prefix_of` plant_ids
    /\ (forall r, (foldM add_plant_options plant_ids opts s).1 = Ok r ->
        topology_calls new = plant_ids).
Proof.
  induction plant_ids as [|p plant_ids IH]; intros opts s.
  - exists []. simpl. by rewrite app_nil_r.
  - destruct (add_plant_options_log opts p s) as (n1 & H1 & P1 & O1).
    simpl. unfold bind.
    destruct (add_plant_options opts p s) as [[opts1|e] s1] eqn:E; simpl in *.
    + destruct (IH opts1 s1) as (n2 & H2 & P2 & O2).
      exists (n1 ++ n2). rewrite H2, H1, app_assoc. split; [done|].
      rewrite topology_calls_app, (O1 _ eq_refl). split.
      * by apply (prefix_app [p]).
      * intros r Hr. by rewrite (O2 _ Hr).
    + exists n1. split; [done|]. split; [|done].
      etrans; [exact P1|]. by apply (prefix_app_r [p] [p] plant_ids).
Qed.

Lemma foldM_invariant {A B} (I : B -> Prop) (f : B -> A -> M W B) (l : list A) :
  (forall b a s b' s', a ∈ l -> I b -> f b a s = (Ok b', s') -> I b') ->
  forall b s b' s', I b -> foldM f l b s = (Ok b', s') -> I b'.
Proof.
  induction l as [|x l IH]; intros Hf b s b' s' Hb; simpl.
  - by intros [= <- _].
  - unfold bind. destruct (f b x s) as [[b1|e] s1] eqn:E; [|done].
    apply IH.
    + intros b0 a s0 b0' s0' Ha. apply Hf. by right.
    + eapply (Hf b x s); [by left | done | exact E].
Qed.

Lemma dict_update_keys {V} k (v : V) d :
  map fst (dict_update k v d)
  = if decide (k ∈ map fst d) then map fst d else map fst d ++ [k].
Proof.
  induction d as [|[k' v'] d IH]; simpl; [done|].
  destruct (String.eqb_spec k' k) as [->|Hne]; simpl.
  - rewrite decide_True; [done | by left].
  - rewrite IH. destruct (decide (k ∈ map fst d)) as [Hin|Hout].
    + rewrite decide_True; [done | by right].
    + rewrite decide_False; [done|].
      intros Hin. apply elem_of_cons in Hin as [->|Hin]; done.
Qed.

(** Storing under a key of [ids] keeps the keys distinct and within
    [ids]. *)
Lemma keyed_within_update ids k v d :
  k ∈ ids -> keyed_within ids d -> keyed_within ids (dict_update k v d).
Proof.
  intros Hk [Hnd Hsub]. unfold keyed_within. rewrite dict_update_keys.
  destruct (decide (k ∈ map fst d)) as [Hin|Hout]; [done|]. split.
  - apply NoDup_app. split; [done|]. split; [|apply NoDup_singleton].
    intros x Hx Hx'. apply list_elem_of_singleton in Hx' as ->. done.
  - intros x Hx. apply elem_of_app in Hx as [Hx|Hx]; [by apply Hsub|].
    by apply list_elem_of_singleton in Hx as ->.
Qed.

Lemma add_thermostat_option_stores p opts thermo (s : state W) opts' s' :
  add_thermostat_option p opts thermo s = (Ok opts', s') ->
  exists v, opts' = dict_update p v opts.
Proof.
  unfold add_thermostat_option, bind, external.
  destruct (generate_id (world s)) as [i w1].
  destruct (get_programs_from_api p (device_id thermo) _) as [[progs|e] s1];
    [|done].
  intros [= <- _]. by eexists.
Qed.

(** However many devices the topologies hold, the collection that the
    discovery returns has one entry per plant at most: its keys are
    distinct plant identifiers of the listing. *)
Lemma discover_thermostats_keys (plants : list plant) (s : state W) opts s' :
  SetToListSpec L ->
  discover_thermostats plants s = (Ok opts, s') ->
  keyed_within (map plant_id plants) opts
  /\ length opts <= length (set_to_list (map plant_id plants)).
Proof.
  intros Hset. unfold discover_thermostats, bind.
  destruct (foldM add_plant_options _ [] s) as [[o|e] s1] eqn:E; [|done].
  intros [= <- _].
  assert (Hk : keyed_within (set_to_list (map plant_id plants)) o).
  { eapply (foldM_invariant (keyed_within (set_to_list (map plant_id plants))));
      [| |exact E].
    - intros b p s0 b' s0' Hp Hb. unfold add_plant_options, bind.
      destruct (get_attr _ _ s0) as [[api|e0] s2]; [|done].
      destruct (external _ _ s2) as [[topologies|e1] s3]; [|done].
      apply (foldM_invariant (keyed_within (set_to_list (map plant_id plants))));
        [|done].
      intros b1 thermo s4 b1' s4' _ Hb1 Hrun.
      destruct (add_thermostat_option_stores _ _ _ _ _ _ Hrun) as [v ->].
      by apply keyed_within_update.
    - split; [constructor | by intros k Hk%elem_of_nil]. }
  destruct Hk as [Hnd Hsub]. split.
  - split; [done|]. intros k Hk. by apply set_to_list_elem, Hsub.
  - rewrite <- (length_map fst o). apply submseteq_length.
    by apply NoDup_submseteq.
Qed.

Lemma queries_not_elem (p : string) l :
  p ∉ l -> length (filter (fun q => q = p) l) = 0.
Proof.
  induction l as [|x l IH]; intros Hp; [done|].
  apply not_elem_of_cons in Hp as [Hx Hp].
  rewrite filter_cons_False by congruence. by apply IH.
Qed.

Lemma NoDup_queries_le (p : string) l :
  NoDup l -> length (filter (fun q => q = p) l) <= 1.
Proof.
  induction 1 as [|x l Hx Hl IH]; simpl; [lia|].
  rewrite filter_cons. destruct (decide (x = p)) as [->|]; [|done].
  simpl. by rewrite queries_not_elem.
Qed.

Lemma queries_elem (p : string) l :
  p ∈ l -> 1 <= length (filter (fun q => q = p) l).
Proof.
  intros Hp. assert (Hin : p ∈ filter (fun q => q = p) l)
    by by apply list_elem_of_filter.
  destruct (filter (fun q => q = p) l); [by apply not_elem_of_nil in Hin|].
  simpl. lia.
Qed.

(** The log of the discovery on any run, returning or raising. *)
Lemma discover_thermostats_log (plants : list plant) (s : state W) :
  SetToListSpec L ->
  exists new,
    calls (discover_thermostats plants s).2 = calls s ++ new
    /\ (forall p, topology_queries p new <= 1)
    /\ (forall p, p ∉ map plant_id plants -> topology_queries p new = 0)
    /\ (forall r, (discover_thermostats plants s).1 = Ok r ->
        forall p, p ∈ map plant_id plants -> topology_queries p new = 1)
    /\ (forall r a b before between after,
          (discover_thermostats plants s).1 = Ok r ->
          plants = before ++ a :: between ++ b :: after ->
          plant_id a = plant_id b ->
          topology_queries (plant_id a) new = 1).
Proof.
  intros Hset.
  destruct (plants_loop_log (set_to_list (map plant_id plants)) [] s)
    as (new & Hcalls & Hpre & Hall).
  pose proof (set_to_list_NoDup (map plant_id plants)) as Hnd.
  assert (Hrun : discover_thermostats plants s
                 = match foldM add_plant_options
                           (set_to_list (map plant_id plants)) [] s with
                   | (Ok o, s') =>
                       (Ok o, mk_state (mk_flow (data (self s')) (bticino_api (self s'))
                                          (Some o)) (world s') (calls s'))
                   | (Raise e, s') => (Raise e, s')
                   end).
  { unfold discover_thermostats, bind.
    by destruct (foldM add_plant_options _ [] s) as [[o|e] s']. }
  assert (Hlog : calls (discover_thermostats plants s).2 = calls s ++ new).
  { rewrite Hrun. by destruct (foldM add_plant_options _ [] s) as [[o|e] s']. }
  assert (Hone : forall r, (discover_thermostats plants s).1 = Ok r ->
                 forall p, p ∈ map plant_id plants -> topology_queries p new = 1).
  { intros r Hr p Hp. unfold topology_queries.
    assert (Hids : topology_calls new = set_to_list (map plant_id plants)).
    { rewrite Hrun in Hr.
      destruct (foldM add_plant_options _ [] s) as [[o|e] s'] eqn:E; [|done].
      by apply (Hall o). }
    rewrite Hids. apply Nat.le_antisymm; [by apply NoDup_queries_le|].
    apply queries_elem. by apply set_to_list_elem. }
  exists new. split; [done|].
  destruct Hpre as [rest Hrest]. rewrite Hrest in Hnd.
  apply NoDup_app in Hnd as (Hnd & _ & _).
  split; [|split; [|split]].
  - intros p. by apply NoDup_queries_le.
  - intros p Hp. apply queries_not_elem. intros Hin. apply Hp.
    apply (set_to_list_elem (map plant_id plants) p). rewrite Hrest.
    apply elem_of_app. by left.
  - exact Hone.
  - intros r a b before between after Hr -> Hab. apply (Hone r Hr).
    rewrite map_app. apply elem_of_app. right. simpl. left.
Qed.

(** One turn of the loop over the devices returns when the API answers,
    and assigns no attribute. *)
Lemma add_thermostat_option_returns api p opts thermo (s : state W) :
  bticino_api (self s) = Some api ->
  (forall q t w, exists progs w',
      get_chronothermostat_programlist api q t w = (Ok progs, w')) ->
  exists o s',
    add_thermostat_option p opts thermo s = (Ok o, s') /\ self s' = self s.
Proof.
  intros Hapi Hprogs.
  unfold add_thermostat_option, bind at 1, external at 1.
  destruct (generate_id (world s)) as [i w1].
  unfold bind at 1, get_programs_from_api, bind at 1, get_attr.
  cbn [self world calls]. rewrite Hapi.
  unfold bind, external. cbn [self world calls].
  destruct (Hprogs p (device_id thermo) w1) as (progs & w2 & Hp). rewrite Hp.
  by eexists _, _.
Qed.

Lemma devices_loop_returns api p devs : forall opts (s : state W),
  bticino_api (self s) = Some api ->
  (forall q t w, exists progs w',
      get_chronothermostat_programlist api q t w = (Ok progs, w')) ->
  exists o s',
    foldM (add_thermostat_option p) devs opts s = (Ok o, s')
    /\ self s' = self s.
Proof.
  induction devs as [|x devs IH]; intros opts s Hapi Hprogs; simpl.
  - by eexists _, _.
  - destruct (add_thermostat_option_returns api p opts x s Hapi Hprogs)
      as (o1 & s1 & H1 & Hself1).
    rewrite (bind_Ok _ _ _ _ _ H1).
    rewrite <- Hself1 in Hapi.
    destruct (IH o1 s1 Hapi Hprogs) as (o & s' & H & Hself).
    exists o, s'. split; [done|]. by rewrite Hself.
Qed.

Lemma add_plant_options_returns api opts p (s : state W) :
  bticino_api (self s) = Some api ->
  (forall q w, exists devs w', get_topology api q w = (Ok devs, w')) ->
  (forall q t w, exists progs w',
      get_chronothermostat_programlist api q t w = (Ok progs, w')) ->
  exists o s', add_plant_options opts p s = (Ok o, s') /\ self s' = self s.
Proof.
  intros Hapi Htopo Hprogs. unfold add_plant_options.
  rewrite (bind_Ok _ _ _ _ _ (get_attr_Some _ _ _ _ Hapi)).
  unfold bind at 1, external at 1.
  destruct (Htopo p (world s)) as (devs & w1 & Ht). rewrite Ht.
  destruct (devices_loop_returns api p devs opts
              (mk_state (self s) w1 (calls s ++ [Call_get_topology p]))
              Hapi Hprogs) as (o & s' & Hloop & Hself).
  by exists o, s'.
Qed.

(** The loop over the plants returns when the API answers every query. *)
Lemma plants_loop_returns api plant_ids : forall opts (s : state W),
  bticino_api (self s) = Some api ->
  (forall q w, exists devs w', get_topology api q w = (Ok devs, w')) ->
  (forall q t w, exists progs w',
      get_chronothermostat_programlist api q t w = (Ok progs, w')) ->
  exists o s',
    foldM add_plant_options plant_ids opts s = (Ok o, s') /\ self s' = self s.
Proof.
  induction plant_ids as [|p plant_ids IH]; intros opts s Hapi Htopo Hprogs;
    simpl.
  - by eexists _, _.
  - destruct (add_plant_options_returns api opts p s Hapi Htopo Hprogs)
      as (o1 & s1 & H1 & Hself1).
    rewrite (bind_Ok _ _ _ _ _ H1).
    rewrite <- Hself1 in Hapi.
    destruct (IH o1 s1 Hapi Htopo Hprogs) as (o & s' & H & Hself).
    exists o, s'. split; [done|]. by rewrite Hself.
Qed.

(** C6.  The discovery loop runs over the set of the plant identifiers of
    the listing: whatever order the set is read in and however often an
    identifier is listed, on every run no identifier is queried twice and
    none that is not listed is queried.  When the API object is built and
    the API answers the topology and program queries, the discovery
    returns, and its calls query every listed identifier exactly once (so
    an identifier shared by two plants of the listing is queried once). *)
Theorem C6_topology_queried_once (plants : list plant) (s : state W) :
  SetToListSpec L ->
  (exists new,
      calls (discover_thermostats plants s).2 = calls s ++ new
      /\ (forall p, topology_queries p new <= 1)
      /\ (forall p, p ∉ map plant_id plants -> topology_queries p new = 0)
      /\ (forall r, (discover_thermostats plants s).1 = Ok r ->
          forall p, p ∈ map plant_id plants -> topology_queries p new = 1)
      /\ (forall r a b before between after,
            (discover_thermostats plants s).1 = Ok r ->
            plants = before ++ a :: between ++ b :: after ->
            plant_id a = plant_id b ->
            topology_queries (plant_id a) new = 1))
  /\ (forall api,
        bticino_api (self s) = Some api ->
        (forall q w, exists devs w', get_topology api q w = (Ok devs, w')) ->
        (forall q t w, exists progs w',
            get_chronothermostat_programlist api q t w = (Ok progs, w')) ->
        exists thermostat_options s' new,
          discover_thermostats plants s = (Ok thermostat_options, s')
          /\ calls s' = calls s ++ new
          /\ (forall p, p ∈ map plant_id plants -> topology_queries p new = 1)
          /\ (forall p, p ∉ map plant_id plants -> topology_queries p new = 0)
          /\ (forall a b before between after,
                plants = before ++ a :: between ++ b :: after ->
                plant_id a = plant_id b ->
                topology_queries (plant_id a) new = 1)).
Proof.
  intros Hset. split; [by apply discover_thermostats_log|].
  intros api Hapi Htopo Hprogs.
  destruct (plants_loop_returns api (set_to_list (map plant_id plants)) [] s
              Hapi Htopo Hprogs) as (o & s1 & Hloop & _).
  assert (Hrun : discover_thermostats plants s
                 = (Ok o, mk_state (mk_flow (data (self s1)) (bticino_api (self s1))
                                      (Some o)) (world s1) (calls s1))).
  { unfold discover_thermostats. by rewrite (bind_Ok _ _ _ _ _ Hloop). }
  destruct (discover_thermostats_log plants s Hset)
    as (new & Hcalls & _ & Hzero & Hone & Htwice).
  rewrite Hrun in Hcalls, Hone, Htwice. simpl in Hcalls, Hone, Htwice.
  eexists o, _, new. split; [exact Hrun|]. split; [exact Hcalls|].
  split; [by apply (Hone o)|]. split; [exact Hzero|].
  intros a b before between after. by apply (Htwice o).
Qed.

End Discovery.

(** ** Authorization URL Builder *)

Section Text.

Lemma app_String x (a b : string) : String x a +:+ b = String x (a +:+ b).
Proof. reflexivity. Qed.

Lemma app_Empty (b : string) : EmptyString +:+ b = b.
Proof. reflexivity. Qed.

Lemma string_app_assoc (a b c : string) : (a +:+ b) +:+ c = a +:+ (b +:+ c).
Proof.
  induction a as [|x a IH]; [done|]. rewrite !app_String. by f_equal.
Qed.

Lemma occurs_app c (a b : string) : occurs c (a +:+ b) = occurs c a || occurs c b.
Proof.
  induction a as [|x a IH]; [done|].
  rewrite app_String. simpl. by rewrite IH, orb_assoc.
Qed.

Lemma cut_at_absent c s : occurs c s = false -> cut_at c s = (s, None).
Proof.
  induction s as [|x s IH]; simpl; [done|]. intros H.
  apply orb_false_iff in H as [Hx Hs]. by rewrite Hx, (IH Hs).
Qed.

Lemma cut_at_first c (a b : string) :
  occurs c a = false -> cut_at c (a +:+ String c b) = (a, Some b).
Proof.
  induction a as [|x a IH].
  - intros _. rewrite app_Empty. simpl. by rewrite Ascii.eqb_refl.
  - intros H. simpl in H. apply orb_false_iff in H as [Hx Ha].
    rewrite app_String. simpl. by rewrite Hx, (IH Ha).
Qed.

Lemma split_on_absent c s : occurs c s = false -> split_on c s = [s].
Proof.
  induction s as [|x s IH]; simpl; [done|]. intros H.
  apply orb_false_iff in H as [Hx Hs]. by rewrite Hx, (IH Hs).
Qed.

Lemma split_on_first c (a b : string) :
  occurs c a = false ->
  split_on c (a +:+ String c b) = a :: split_on c b.
Proof.
  induction a as [|x a IH].
  - intros _. rewrite app_Empty. simpl. by rewrite Ascii.eqb_refl.
  - intros H. simpl in H. apply orb_false_iff in H as [Hx Ha].
    rewrite app_String. simpl. by rewrite Hx, (IH Ha).
Qed.

(** The digits of [hex] are none of the delimiters of a URL. *)
Lemma hex_digit_plain n :
  Ascii.eqb (hex_digit n) "&" = false /\ Ascii.eqb (hex_digit n) "#" = false
  /\ Ascii.eqb (hex_digit n) "?" = false /\ Ascii.eqb (hex_digit n) "=" = false.
Proof.
  destruct n as [|p]; [done|].
  do 4 (destruct p as [p|p|]; try done).
Qed.

Lemma occurs_hex c bs :
  c = "&"%char \/ c = "#"%char \/ c = "?"%char \/ c = "="%char ->
  occurs c (hex bs) = false.
Proof.
  intros Hc. induction bs as [|b bs IH]; simpl; [done|].
  rewrite IH.
  destruct (hex_digit_plain (Byte.to_N b / 16)) as (A1 & A2 & A3 & A4).
  destruct (hex_digit_plain (Byte.to_N b mod 16)) as (B1 & B2 & B3 & B4).
  destruct Hc as [ -> | [ -> | [ -> | -> ] ] ]; by rewrite ?A1, ?A2, ?A3, ?A4, ?B1, ?B2, ?B3, ?B4.
Qed.

Lemma length_hex bs : String.length (hex bs) = 2 * length bs.
Proof. induction bs as [|b bs IH]; simpl; [done|]. rewrite IH. lia. Qed.

Lemma hex_value_digit n : (n < 16)%N -> hex_value (hex_digit n) = n.
Proof.
  intros Hn. destruct n as [|p]; [done|].
  do 4 (destruct p as [p|p|]; try done); lia.
Qed.

(** [hex] loses nothing: two byte strings with the same digits are the
    same. *)
Lemma hex_inj bs1 bs2 : hex bs1 = hex bs2 -> bs1 = bs2.
Proof.
  revert bs2. induction bs1 as [|b1 bs1 IH]; intros [|b2 bs2]; simpl; try done.
  intros [= Hhi Hlo Hrest]. f_equal; [|by apply IH].
  pose proof (Byte.to_N_bounded b1) as L1.
  pose proof (Byte.to_N_bounded b2) as L2.
  assert (Hh : (Byte.to_N b1 / 16 = Byte.to_N b2 / 16)%N).
  { rewrite <- (hex_value_digit (Byte.to_N b1 / 16)),
            <- (hex_value_digit (Byte.to_N b2 / 16)).
    - by rewrite Hhi.
    - apply N.Div0.div_lt_upper_bound. lia.
    - apply N.Div0.div_lt_upper_bound. lia. }
  assert (Hl : (Byte.to_N b1 mod 16 = Byte.to_N b2 mod 16)%N).
  { rewrite <- (hex_value_digit (Byte.to_N b1 mod 16)),
            <- (hex_value_digit (Byte.to_N b2 mod 16)).
    - by rewrite Hlo.
    - by apply N.mod_lt.
    - by apply N.mod_lt. }
  assert (Hn : Byte.to_N b1 = Byte.to_N b2).
  { rewrite (N.div_mod (Byte.to_N b1) 16), (N.div_mod (Byte.to_N b2) 16) by done.
    by rewrite Hh, Hl. }
  pose proof (Byte.of_to_N b1) as E1. rewrite Hn, Byte.of_to_N in E1.
  by injection E1.
Qed.

End Text.

Section AuthorizationUrl.

Context {C : Consts} {L : PyLib} {W : Type} {P : Platform W}.

Lemma length_urandom n (w : W) : length (urandom n w).1 = n.
Proof.
  revert w. induction n as [|n IH]; intros w; simpl; [done|].
  destruct (random_byte w) as [b w1]. specialize (IH w1).
  destruct (urandom n w1) as [bs w2]. simpl in *. by rewrite IH.
Qed.

(** The composed URL, cut at its delimiters. *)
Lemma authorization_url_of_fields cid st :
  authorization_url_of cid st
  = (DEFAULT_AUTH_BASE_URL +:+ AUTH_URL_ENDPOINT)
    +:+ String "?"
          (("client_id=" +:+ cid)
           +:+ String "&"
                 ("response_type=code"
                  +:+ String "&"
                        (("state=" +:+ st)
                         +:+ String "&" ("redirect_uri=" +:+ DEFAULT_REDIRECT_URI)))).
Proof.
  unfold authorization_url_of. rewrite !string_app_assoc. reflexivity.
Qed.

Lemma query_of_authorization_url cid st :
  occurs "#" cid = false ->
  occurs "#" st = false ->
  occurs "?" (DEFAULT_AUTH_BASE_URL +:+ AUTH_URL_ENDPOINT) = false ->
  occurs "#" (DEFAULT_AUTH_BASE_URL +:+ AUTH_URL_ENDPOINT) = false ->
  occurs "#" DEFAULT_REDIRECT_URI = false ->
  query_of (authorization_url_of cid st)
  = ("client_id=" +:+ cid)
    +:+ String "&"
          ("response_type=code"
           +:+ String "&"
                 (("state=" +:+ st)
                  +:+ String "&" ("redirect_uri=" +:+ DEFAULT_REDIRECT_URI))).
Proof.
  intros Hcid Hst Hq Hf Hr. rewrite authorization_url_of_fields.
  unfold query_of. rewrite (cut_at_absent "#").
  - cbn [fst]. by rewrite (cut_at_first _ _ _ Hq).
  - rewrite occurs_app, Hf. simpl.
    rewrite occurs_app, occurs_app, Hcid. simpl.
    rewrite occurs_app, occurs_app, Hst. simpl.
    by rewrite occurs_app, Hr.
Qed.

(** C7, as the code has it.  For a client identifier without [&] and
    [#] (and an endpoint without [?] and [#], a redirect URI without [&]
    and [#]) the builder draws 16 bytes from the entropy source and
    returns a URL whose query has exactly four fields, in this order:
    [client_id] with the supplied value, [response_type] with [code],
    [state] with the 32 hexadecimal digits of the 16 bytes (which determine
    the bytes), and [redirect_uri] with the fixed URI. *)
Theorem C7_authorization_url_fields (user_input : flow_data) (s : state W) :
  occurs "&" (client_id user_input) = false ->
  occurs "#" (client_id user_input) = false ->
  occurs "?" (DEFAULT_AUTH_BASE_URL +:+ AUTH_URL_ENDPOINT) = false ->
  occurs "#" (DEFAULT_AUTH_BASE_URL +:+ AUTH_URL_ENDPOINT) = false ->
  occurs "&" DEFAULT_REDIRECT_URI = false ->
  occurs "#" DEFAULT_REDIRECT_URI = false ->
  exists url token,
    get_authorization_url user_input s
    = (Ok url,
       mk_state (self s) (urandom 16 (world s)).2 (calls s ++ [Call_token_hex 16]))
    /\ token = (urandom 16 (world s)).1
    /\ length token = 16
    /\ String.length (hex token) = 32
    /\ (forall other, hex other = hex token -> other = token)
    /\ query_pairs (query_of url)
       = [("client_id", Some (client_id user_input));
          ("response_type", Some "code");
          ("state", Some (hex token));
          ("redirect_uri", Some DEFAULT_REDIRECT_URI)].
Proof.
  intros Hamp Hhash Hq Hf Hramp Hrhash.
  exists (authorization_url_of (client_id user_input) (hex (urandom 16 (world s)).1)),
         (urandom 16 (world s)).1.
  split; [apply get_authorization_url_run|]. split; [done|].
  split; [apply length_urandom|].
  split; [by rewrite length_hex, length_urandom|].
  split; [intros other; apply hex_inj|].
  rewrite query_of_authorization_url;
    [|done|by apply occurs_hex; auto|done|done|done].
  unfold query_pairs.
  rewrite split_on_first.
  2:{ rewrite occurs_app. simpl. exact Hamp. }
  rewrite (split_on_first "&" "response_type=code") by done.
  rewrite split_on_first.
  2:{ rewrite occurs_app. simpl. apply occurs_hex. auto. }
  rewrite split_on_absent.
  2:{ rewrite occurs_app. simpl. exact Hramp. }
  reflexivity.
Qed.

End AuthorizationUrl.

(** * The theorems on the reference world *)

Module Scenarios.

Import Reference.

(** C1 on the scenario of the specification: one plant whose topology
    holds the devices Living Room and Bedroom.  The loop mints an
    identifier and fetches the programs for both, but stores both under
    the key of the plant: the collection ends with the Bedroom alone, and
    the selection form offers only that name. *)
Theorem C1_second_device_replaces_first :
  get_topology session_data "plant-1" home
  = (Ok [mk_topology_device "dev-1" "Living Room";
         mk_topology_device "dev-2" "Bedroom"], home)
  /\ (async_step_get_authorize_code (Some callback) (awaiting_callback home)).1
     = Ok (ShowForm "select_thermostats"
             (SelectThermostatsSchema ["Bedroom"] ["Bedroom"]) None)
  /\ _thermostat_options (self (selecting_devices home))
     = Some [("plant-1", bedroom)]
  /\ calls (selecting_devices home)
     = [Call_token_hex 16;
        Call_exchange_code_for_tokens "my-client" "my-secret"
          "https://redirect.example/cb" "ABC";
        Call_check_api_endpoint_health; Call_get_plants;
        Call_get_topology "plant-1";
        Call_generate_id;
        Call_get_chronothermostat_programlist "plant-1" "dev-1";
        Call_generate_id;
        Call_get_chronothermostat_programlist "plant-1" "dev-2"].
Proof. vm_compute. repeat split. Qed.

Lemma C2_witness :
  data (self (awaiting_callback home)) = Some credentials
  /\ async_current_entries (world (awaiting_callback home)) = false
  /\ urlparse_query "https://x/cb?state=XYZ" = Ok "state=XYZ"
  /\ query_param (parse_qs "state=XYZ") "code" = [""]
  /\ query_param (parse_qs "state=XYZ") "state" = ["XYZ"]
  /\ authorize_code_attempt "https://x/cb?state=XYZ" (awaiting_callback home)
     = (Raise (ValueError invalid_callback_message), awaiting_callback home)
  /\ calls (async_step_get_authorize_code (Some "https://x/cb?state=XYZ")
              (awaiting_callback home)).2
     = calls (awaiting_callback home) ++ [Call_token_hex 16].
Proof.
  do 5 (split; [reflexivity|]).
  destruct (C2_invalid_callback_handled "https://x/cb?state=XYZ"
              (awaiting_callback home) credentials "state=XYZ" "" [] "XYZ" [])
    as (H1 & _ & _ & H4 & _);
    [reflexivity | reflexivity | reflexivity | reflexivity
    | left; reflexivity | ].
  destruct (H4 eq_refl) as (_ & _ & Hcalls).
  split; [exact H1 | exact Hcalls].
Defined.

(** C2 as the claim words it fails in a session whose credentials are
    stored while an entry is configured: the callback without code is
    handled, but the step returns the abort of the credentials step and
    not the callback form. *)
Lemma C2_configured_counterexample :
  data (self MoreWorlds.configured_meanwhile) = Some credentials
  /\ query_param (parse_qs "state=XYZ") "code" = [""]
  /\ (async_step_get_authorize_code (Some "https://x/cb?state=XYZ")
        MoreWorlds.configured_meanwhile).1
     = Ok (Abort "single_instance_allowed")
  /\ forall data_schema errors,
       (async_step_get_authorize_code (Some "https://x/cb?state=XYZ")
          MoreWorlds.configured_meanwhile).1
       <> Ok (ShowForm "get_authorize_code" data_schema errors).
Proof.
  split; [reflexivity|]. split; [reflexivity|].
  split; [vm_compute; reflexivity|].
  intros data_schema errors. vm_compute. discriminate.
Qed.

(** C8 as the claim words it fails on its last clause: in a session that
    passed the guard before an entry came to exist, the selection step
    does not read the existing entries and returns a further entry to
    persist. *)
Lemma C8_second_entry_counterexample :
  async_current_entries (world MoreWorlds.configured_while_selecting) = true
  /\ exists selected,
       (async_step_select_thermostats ["Bedroom"]
          MoreWorlds.configured_while_selecting).1
       = Ok (CreateEntry "Bticino X8000"
               (mk_config_record "my-client" "my-secret" "my-key"
                  "https://ha.example" "tok_a" "tok_r" "2025-01-01T00:00:00Z"
                  selected)).
Proof.
  split; [reflexivity|]. eexists. vm_compute. reflexivity.
Qed.

(** C3 as the claim words it fails on the reason: with an API that is
    not healthy the step aborts after the exchange and the health check,
    and the reason it gives is not [auth_failed]. *)
Lemma C3_reason_counterexample :
  check_api_endpoint_health session_data (with_health false home)
  = (Ok false, with_health false home)
  /\ calls (async_step_get_authorize_code (Some callback)
              (awaiting_callback (with_health false home))).2
     = [Call_token_hex 16;
        Call_exchange_code_for_tokens "my-client" "my-secret"
          "https://redirect.example/cb" "ABC";
        Call_check_api_endpoint_health]
  /\ (async_step_get_authorize_code (Some callback)
        (awaiting_callback (with_health false home))).1
     = Ok (Abort "Auth Failed!")
  /\ (async_step_get_authorize_code (Some callback)
        (awaiting_callback (with_health false home))).1
     <> Ok (Abort "auth_failed").
Proof. vm_compute. repeat split. discriminate. Qed.

Lemma C3_witness :
  check_api_endpoint_health (exchanged credentials "ABC" tokens)
    (world (awaiting_callback (with_health false home)))
  = (Ok false, world (awaiting_callback (with_health false home)))
  /\ (async_step_get_authorize_code (Some callback)
        (awaiting_callback (with_health false home))).1
     = Ok (Abort "Auth Failed!").
Proof.
  split; [reflexivity|].
  refine (proj1 (C3_health_check_abort callback
                   (awaiting_callback (with_health false home)) credentials
                   "code=ABC&state=XYZ" "ABC" [] "XYZ" [] tokens
                   (world (awaiting_callback (with_health false home)))
                   (world (awaiting_callback (with_health false home)))
                   _ _ _ _ _ _ _ _));
    first [reflexivity | discriminate].
Defined.

Lemma C5_witness :
  bticino_api (self (selecting_devices home)) = Some session_data
  /\ get_chronothermostat_programlist session_data "plant-1" "dev-1"
       (world (selecting_devices home))
     = (Ok [mk_program 0 "manual"; mk_program 1 "week"],
        world (selecting_devices home))
  /\ exists kept,
       (get_programs_from_api "plant-1" "dev-1" (selecting_devices home)).1
       = Ok kept
       /\ sublist kept [mk_program 0 "manual"; mk_program 1 "week"]
       /\ Forall user_schedule kept.
Proof.
  do 2 (split; [reflexivity|]).
  destruct (C5_program_filter session_data "plant-1" "dev-1"
              (selecting_devices home)
              [mk_program 0 "manual"; mk_program 1 "week"]
              (world (selecting_devices home)))
    as (kept & H1 & H2 & H3 & _); [reflexivity | reflexivity | ].
  exists kept. split; [exact H1 | split; [exact H2 | exact H3]].
Defined.

Lemma C8_witness :
  async_current_entries (world (start (with_entries true home))) = true
  /\ (async_step_user (Some credentials) (start (with_entries true home))).1
     = Ok (Abort "single_instance_allowed")
  /\ (async_step_user (Some credentials) (start (with_entries true home))).2
     = start (with_entries true home)
  /\ calls (async_step_user (Some credentials) (start (with_entries true home))).2
     = calls (start (with_entries true home)).
Proof.
  split; [reflexivity|].
  apply (C8_single_instance_abort (Some credentials)
           (start (with_entries true home))).
  reflexivity.
Defined.

Lemma C9_witness :
  urlparse_query callback = Ok "code=ABC&state=XYZ"
  /\ urlparse_query "https://x/cb?code=ABC&state=OTHER" = Ok "code=ABC&state=OTHER"
  /\ async_step_get_authorize_code (Some callback) (awaiting_callback home)
     = async_step_get_authorize_code (Some "https://x/cb?code=ABC&state=OTHER")
         (awaiting_callback home).
Proof.
  do 2 (split; [reflexivity|]).
  refine (proj1 (C9_state_never_compared callback
                   "https://x/cb?code=ABC&state=OTHER" (awaiting_callback home)
                   "code=ABC&state=XYZ" "code=ABC&state=OTHER"
                   "XYZ" [] "OTHER" [] _ _ _ _ _ _ _));
    first [reflexivity | discriminate].
Defined.

Lemma C10_witness :
  get_plants (exchanged credentials "ABC" tokens)
    (world (awaiting_callback (with_plants (mk_plants_response 500 []) home)))
  = (Ok (mk_plants_response 500 []),
     world (awaiting_callback (with_plants (mk_plants_response 500 []) home)))
  /\ exists e,
       (async_step_get_authorize_code (Some callback)
          (awaiting_callback (with_plants (mk_plants_response 500 []) home))).1
       = Raise e
       /\ is_NameError e = true.
Proof.
  split; [reflexivity|].
  destruct (C10_unbound_thermostat_options callback
              (awaiting_callback (with_plants (mk_plants_response 500 []) home))
              credentials "code=ABC&state=XYZ" "ABC" [] "XYZ" [] tokens
              (world (awaiting_callback (with_plants (mk_plants_response 500 []) home)))
              (world (awaiting_callback (with_plants (mk_plants_response 500 []) home)))
              (mk_plants_response 500 [])
              (world (awaiting_callback (with_plants (mk_plants_response 500 []) home))))
    as (e & H1 & _ & H3 & _);
    [reflexivity | reflexivity | reflexivity | reflexivity | discriminate
    | discriminate | reflexivity | reflexivity | reflexivity | discriminate | ].
  exists e. split; [exact H1 | exact H3].
Defined.

(** C7 as the claim words it fails for a client identifier that holds a
    delimiter: the form accepts any text, the builder copies it, and the
    query then names [state] twice. *)
Lemma C7_duplicate_key_counterexample :
  exists url,
    (get_authorization_url
       (mk_flow_data "a&state=b" "my-secret" "my-key" "https://ha.example"
          None None None None)
       (start home)).1 = Ok url
    /\ map fst (query_pairs (query_of url))
       = ["client_id"; "state"; "response_type"; "state"; "redirect_uri"].
Proof. eexists. split; vm_compute; reflexivity. Qed.

Lemma C7_witness :
  occurs "&" (client_id credentials) = false
  /\ occurs "#" (client_id credentials) = false
  /\ exists url token,
       get_authorization_url credentials (start home)
       = (Ok url,
          mk_state (self (start home)) (urandom 16 (world (start home))).2
            (calls (start home) ++ [Call_token_hex 16]))
       /\ length token = 16
       /\ query_pairs (query_of url)
          = [("client_id", Some "my-client");
             ("response_type", Some "code");
             ("state", Some (hex token));
             ("redirect_uri", Some "https://redirect.example/cb")].
Proof.
  do 2 (split; [reflexivity|]).
  destruct (C7_authorization_url_fields credentials (start home))
    as (url & token & H1 & _ & H3 & _ & _ & H6);
    [reflexivity | reflexivity | reflexivity | reflexivity | reflexivity
    | reflexivity | ].
  exists url, token. split; [exact H1 | split; [exact H3 | exact H6]].
Defined.

Lemma C6_witness :
  SetToListSpec pylib
  /\ bticino_api (self (selecting_devices two_homes)) = Some session_data
  /\ plants_data (sim_plants two_homes)
     = [mk_plant "plant-1"; mk_plant "plant-2"; mk_plant "plant-1"]
  /\ exists thermostat_options s' new,
       discover_thermostats (plants_data (sim_plants two_homes))
         (selecting_devices two_homes)
       = (Ok thermostat_options, s')
       /\ calls s' = calls (selecting_devices two_homes) ++ new
       /\ topology_queries "plant-1" new = 1.
Proof.
  split; [exact pylib_set_to_list|]. split; [reflexivity|].
  split; [reflexivity|].
  destruct (C6_topology_queried_once (plants_data (sim_plants two_homes))
              (selecting_devices two_homes) pylib_set_to_list)
    as (_ & Hreturns).
  destruct (Hreturns session_data) as (o & s' & new & Hrun & Hcalls & Hone & _).
  { reflexivity. }
  { intros q w. eexists _, _. reflexivity. }
  { intros q t w. eexists _, _. reflexivity. }
  exists o, s', new. split; [exact Hrun|]. split; [exact Hcalls|].
  apply Hone. left.
Defined.

(** On [two_homes] the listing names [plant-1] twice and its topology
    is queried once. *)
Example topology_queried_once_two_homes :
  topology_calls (calls (selecting_devices two_homes)) = ["plant-2"; "plant-1"].
Proof. vm_compute. reflexivity. Qed.

(** On [two_homes] the first subscription is refused; the second is
    still requested and the entry lists both devices. *)
Example refused_subscription_is_recorded :
  (async_step_select_thermostats ["Living Room"; "Bedroom"]
     (selecting_devices two_homes)).1
  = Ok (CreateEntry "Bticino X8000"
          (mk_config_record "my-client" "my-secret" "my-key" "https://ha.example"
             "tok_a" "tok_r" "2025-01-01T00:00:00Z"
             [("plant-2", mk_selected bedroom_2 None);
              ("plant-1", mk_selected living_room (Some "sub-0"))])).
Proof. vm_compute. reflexivity. Qed.

Lemma C4_witness :
  data (self (selecting_devices two_homes)) = Some session_data
  /\ bticino_api (self (selecting_devices two_homes)) = Some session_data
  /\ _thermostat_options (self (selecting_devices two_homes))
     = Some [("plant-2", bedroom_2); ("plant-1", living_room)]
  /\ exists chosen answers s',
       chosen = filter (fun kv : string * thermostat =>
                          name kv.2 ∈ ["Living Room"; "Bedroom"])
                  [("plant-2", bedroom_2); ("plant-1", living_room)]
       /\ answers = subscribe_answers session_data session_data chosen
                      (world (selecting_devices two_homes))
       /\ async_step_select_thermostats ["Living Room"; "Bedroom"]
            (selecting_devices two_homes)
          = (Ok (CreateEntry "Bticino X8000"
                   (mk_config_record "my-client" "my-secret" "my-key"
                      "https://ha.example" "tok_a" "tok_r" "2025-01-01T00:00:00Z"
                      (zip_with selected_entry chosen answers))),
             s').
Proof.
  do 3 (split; [reflexivity|]).
  destruct (C4_subscription_failure_is_recorded (selecting_devices two_homes)
              session_data session_data
              [("plant-2", bedroom_2); ("plant-1", living_room)]
              "tok_a" "tok_r" "2025-01-01T00:00:00Z" ["Living Room"; "Bedroom"])
    as (_ & chosen & answers & s' & H1 & H2 & _ & H4 & _);
    [reflexivity | reflexivity | reflexivity | reflexivity | reflexivity
    | reflexivity | | ].
  { intros p url w. eexists _, _. reflexivity. }
  exists chosen, answers, s'. split; [exact H1 | split; [exact H2 | exact H4]].
Defined.

End Scenarios.

(** * More of the flow *)

(** ** The monad, continued *)

Section MoreMonadFacts.

Context {W : Type}.

Lemma only_lift {A} F (r : result A) : only F (lift r : M W A).
Proof. intros s. exists []. simpl. by rewrite app_nil_r. Qed.

Lemma only_first_item {A} F (l : list A) : only F (first_item l : M W A).
Proof. destruct l; [apply only_raise | apply only_ret]. Qed.

Lemma only_try_except {A} F (body : M W A) handler :
  only F body -> (forall e, only F (handler e)) ->
  only F (try_except_ValueError body handler).
Proof.
  intros Hb Hh s. destruct (Hb s) as (n1 & H1 & F1).
  unfold try_except_ValueError.
  destruct (body s) as [[a|e] s1]; simpl in *; [by exists n1|].
  destruct (is_ValueError e); [|by exists n1].
  destruct (Hh e s1) as (n2 & H2 & F2). exists (n1 ++ n2).
  rewrite H2, H1, app_assoc. split; [done|]. by apply Forall_app.
Qed.

Lemma only_mapM {A B} F (f : A -> M W B) (l : list A) :
  (forall a, only F (f a)) -> only F (mapM f l).
Proof.
  intros Hf. induction l as [|x l IH]; simpl.
  - apply only_ret.
  - apply only_bind; [apply Hf|]. intros y.
    apply only_bind; [apply IH|]. intros ys. apply only_ret.
Qed.

Lemma only_weaken {A} (F G : call -> Prop) (m : M W A) :
  (forall k, F k -> G k) -> only F m -> only G m.
Proof.
  intros HFG Hm s. destruct (Hm s) as (n & H & Fn). exists n.
  split; [done|]. eapply Forall_impl; [exact Fn | exact HFG].
Qed.

Lemma keeps_self_ret {A} (a : A) : keeps_self (ret a : M W A).
Proof. by intros s. Qed.

Lemma keeps_self_bind {A B} (m : M W A) (k : A -> M W B) :
  keeps_self m -> (forall a, keeps_self (k a)) -> keeps_self (bind m k).
Proof.
  intros Hm Hk s. specialize (Hm s). unfold bind.
  destruct (m s) as [[a|e] s1]; simpl in *; [|done].
  by rewrite Hk.
Qed.

Lemma keeps_self_external {A} c (f : W -> result A * W) :
  keeps_self (external c f).
Proof. intros s. unfold external. by destruct (f (world s)). Qed.

Lemma keeps_self_get_attr {A} attr (proj : flow -> option A) :
  keeps_self (@get_attr W A attr proj).
Proof. intros s. unfold get_attr. by destruct (proj (self s)). Qed.

Lemma keeps_self_foldM {A B} (f : B -> A -> M W B) (l : list A) :
  (forall b a, keeps_self (f b a)) -> forall b, keeps_self (foldM f l b).
Proof.
  intros Hf. induction l as [|x l IH]; intros b; simpl.
  - apply keeps_self_ret.
  - apply keeps_self_bind; [apply Hf | apply IH].
Qed.

End MoreMonadFacts.

(** ** Dictionaries *)

Section Dictionaries.

Context {V : Type}.




Lemma dict_update_Forall (Q : string * V -> Prop) k v d :
  Q (k, v) -> Forall Q d -> Forall Q (dict_update k v d).
Proof.
  intros Hv. induction 1 as [|[k' v'] d Hx Hd IH]; simpl.
  - by repeat constructor.
  - destruct (String.eqb k' k); by constructor.
Qed.

End Dictionaries.

(** ** The credentials step and the callback step, continued *)

Section MoreSteps.

Context {C : Consts} {L : PyLib} {W : Type} {P : Platform W}.

(** X1.  The credentials step returns for every input and in every world,
    also where [hass.config.external_url] cannot be read: the bare
    [except] replaces the value by the prompt text, which is then the
    default of the form.  It either leaves everything as it was or draws
    one token. *)
Theorem credentials_step_always_returns (user_input : option flow_data)
    (s : state W) :
  exists r,
    (async_step_user user_input s).1 = Ok r
    /\ ((async_step_user user_input s).2 = s
        \/ calls (async_step_user user_input s).2 = calls s ++ [Call_token_hex 16])
    /\ (forall e,
          hass_config_external_url (world s) = Raise e ->
          async_current_entries (world s) = false ->
          user_input = None ->
          r = ShowForm "user"
                (UserSchema CLIENT_ID CLIENT_SECRET SUBSCRIPTION_KEY
                   (Some external_url_prompt))
                None).
Proof.
  destruct (async_current_entries (world s)) eqn:He.
  - rewrite (async_step_user_conflict _ _ He). eexists. split; [done|].
    split; [by left|]. by intros e _ [=].
  - destruct user_input as [d|].
    + rewrite (async_step_user_submit _ _ He). eexists. split; [done|].
      split; [by right|]. by intros e _ _ [=].
    + unfold async_step_user, bind, observe. rewrite He. simpl.
      eexists. split; [done|]. split; [by left|].
      intros e Hu _ _. by rewrite Hu.
Qed.

(** X2.  What the credentials step shows depends on the submitted credentials
    through the client identifier only: the secret and the subscription
    key reach neither the form nor the world. *)
Theorem credentials_step_shows_client_id_only (d1 d2 : flow_data) (s : state W) :
  client_id d1 = client_id d2 ->
  (async_step_user (Some d1) s).1 = (async_step_user (Some d2) s).1
  /\ world (async_step_user (Some d1) s).2 = world (async_step_user (Some d2) s).2
  /\ calls (async_step_user (Some d1) s).2 = calls (async_step_user (Some d2) s).2.
Proof.
  intros Hid. destruct (async_current_entries (world s)) eqn:He.
  - by rewrite !(async_step_user_conflict _ _ He).
  - rewrite !(async_step_user_submit _ _ He). simpl. by rewrite Hid.
Qed.

(** A [ValueError] out of the body of the [try] hands the session it left
    to the credentials step. *)
Lemma caught_ValueError url (s s1 : state W) msg d :
  authorize_code_attempt url s = (Raise (ValueError msg), s1) ->
  data (self s1) = Some d ->
  async_step_get_authorize_code (Some url) s = async_step_user (Some d) s1.
Proof.
  intros Hraise Hd. simpl. unfold try_except_ValueError. rewrite Hraise.
  simpl. by apply reenter_user_step_run.
Qed.

Lemma uncaught url (s s1 : state W) e :
  authorize_code_attempt url s = (Raise e, s1) ->
  is_ValueError e = false ->
  async_step_get_authorize_code (Some url) s = (Raise e, s1).
Proof.
  intros Hraise He. simpl. unfold try_except_ValueError.
  by rewrite Hraise, He.
Qed.

(** The body of the [try] when the exchange raises: the code is already
    stored. *)
Lemma authorize_code_attempt_exchange_raises url (s : state W) d q c lc st ls e w1 :
  data (self s) = Some d ->
  urlparse_query url = Ok q ->
  query_param (parse_qs q) "code" = c :: lc ->
  query_param (parse_qs q) "state" = st :: ls ->
  c ≠ "" -> st ≠ "" ->
  exchange_code_for_tokens (client_id d) (client_secret d)
    DEFAULT_REDIRECT_URI c (world s) = (Raise e, w1) ->
  authorize_code_attempt url s
  = (Raise e,
     mk_state
       (mk_flow (Some (set_code d c)) (bticino_api (self s))
          (_thermostat_options (self s)))
       w1
       (calls s ++ [Call_exchange_code_for_tokens (client_id d)
                      (client_secret d) DEFAULT_REDIRECT_URI c])).
Proof.
  intros Hd Hq Hc Hs Hc0 Hs0 Hx. unfold authorize_code_attempt.
  rewrite (bind_Ok _ _ s c s).
  2:{ rewrite (callback_code_run _ _ _ _ _ _ _ Hq Hc Hs).
      apply String.eqb_neq in Hc0, Hs0. by rewrite Hc0, Hs0. }
  rewrite (bind_Ok _ _ _ _ _ (get_attr_Some _ _ _ _ Hd)).
  unfold bind at 1. unfold set_self at 1.
  unfold bind at 1. unfold get_attr at 1. simpl.
  unfold bind at 1. unfold external at 1. simpl. by rewrite Hx.
Qed.

(** X3.  When the token exchange raises a [ValueError], the step does not
    raise: its handler does what the credentials step does on the stored
    credentials.  With no entry configured it shows the callback form again
    with a new authorization URL; with an entry configured it returns the
    abort [single_instance_allowed].  Either way the code of the failed
    attempt stays in [self.data], no token is stored, no API object is
    built, and the exchange is the only network call made. *)
Theorem exchange_ValueError_is_handled url (s : state W)
    d q c lc st ls msg w1 :
  data (self s) = Some d ->
  urlparse_query url = Ok q ->
  query_param (parse_qs q) "code" = c :: lc ->
  query_param (parse_qs q) "state" = st :: ls ->
  c ≠ "" -> st ≠ "" ->
  exchange_code_for_tokens (client_id d) (client_secret d)
    DEFAULT_REDIRECT_URI c (world s) = (Raise (ValueError msg), w1) ->
  async_step_get_authorize_code (Some url) s
  = if async_current_entries w1
    then (Ok (Abort "single_instance_allowed"),
          mk_state
            (mk_flow (Some (set_code d c)) (bticino_api (self s))
               (_thermostat_options (self s)))
            w1
            (calls s ++ [Call_exchange_code_for_tokens (client_id d)
                           (client_secret d) DEFAULT_REDIRECT_URI c]))
    else (Ok (callback_form (client_id d) (hex (urandom 16 w1).1)),
          mk_state
            (mk_flow (Some (set_code d c)) (bticino_api (self s))
               (_thermostat_options (self s)))
            (urandom 16 w1).2
            (calls s ++ [Call_exchange_code_for_tokens (client_id d)
                           (client_secret d) DEFAULT_REDIRECT_URI c;
                         Call_token_hex 16])).
Proof.
  intros Hd Hq Hc Hs Hc0 Hs0 Hx.
  rewrite (caught_ValueError _ _ _ _ (set_code d c)
             (authorize_code_attempt_exchange_raises _ _ _ _ _ _ _ _ _ _
                Hd Hq Hc Hs Hc0 Hs0 Hx) eq_refl).
  destruct (async_current_entries w1) eqn:He.
  - by rewrite async_step_user_conflict.
  - rewrite async_step_user_submit by done. simpl. by rewrite <- app_assoc.
Qed.

(** X4.  When the token exchange raises anything but a [ValueError], the step
    raises it: the handler does not apply.  The code of the attempt is
    already stored in [self.data]. *)
Theorem exchange_other_error_is_not_handled url (s : state W)
    d q c lc st ls e w1 :
  data (self s) = Some d ->
  urlparse_query url = Ok q ->
  query_param (parse_qs q) "code" = c :: lc ->
  query_param (parse_qs q) "state" = st :: ls ->
  c ≠ "" -> st ≠ "" ->
  exchange_code_for_tokens (client_id d) (client_secret d)
    DEFAULT_REDIRECT_URI c (world s) = (Raise e, w1) ->
  is_ValueError e = false ->
  async_step_get_authorize_code (Some url) s
  = (Raise e,
     mk_state
       (mk_flow (Some (set_code d c)) (bticino_api (self s))
          (_thermostat_options (self s)))
       w1
       (calls s ++ [Call_exchange_code_for_tokens (client_id d)
                      (client_secret d) DEFAULT_REDIRECT_URI c])).
Proof.
  intros Hd Hq Hc Hs Hc0 Hs0 Hx He.
  by apply uncaught;
    [apply (authorize_code_attempt_exchange_raises _ _ _ q _ lc st ls)|].
Qed.

(** X5.  A pasted text that [urlparse] rejects with a [ValueError] is
    treated like a callback without code: the step does not raise and its
    handler does what the credentials step does on the stored credentials.
    With no entry configured it shows the callback form again, the session
    unchanged and nothing sent over the network; with an entry configured
    it returns the abort [single_instance_allowed] and changes nothing. *)
Theorem rejected_url_is_handled url (s : state W) d msg :
  data (self s) = Some d ->
  urlparse_query url = Raise (ValueError msg) ->
  async_step_get_authorize_code (Some url) s
  = if async_current_entries (world s)
    then (Ok (Abort "single_instance_allowed"), s)
    else (Ok (callback_form (client_id d) (hex (urandom 16 (world s)).1)),
          mk_state (self s) (urandom 16 (world s)).2
            (calls s ++ [Call_token_hex 16])).
Proof.
  intros Hd Hq.
  assert (Hraise : authorize_code_attempt url s = (Raise (ValueError msg), s)).
  { unfold authorize_code_attempt. apply bind_Raise.
    unfold callback_code. apply bind_Raise. unfold lift. by rewrite Hq. }
  rewrite (caught_ValueError _ _ _ _ _ Hraise Hd).
  destruct (async_current_entries (world s)) eqn:He.
  - by apply async_step_user_conflict.
  - rewrite (async_step_user_submit _ _ He). do 2 f_equal.
    destruct s as [[dd api opts] w cs]. simpl in *. by subst.
Qed.

(** X6.  When a configuration entry exists by the time a callback without
    code or state is pasted, the handler does not show the form again: it
    runs into the guard of the credentials step and the flow aborts. *)
Theorem invalid_callback_aborts_when_configured url (s : state W)
    d q c lc st ls :
  data (self s) = Some d ->
  async_current_entries (world s) = true ->
  urlparse_query url = Ok q ->
  query_param (parse_qs q) "code" = c :: lc ->
  query_param (parse_qs q) "state" = st :: ls ->
  c = "" \/ st = "" ->
  async_step_get_authorize_code (Some url) s
  = (Ok (Abort "single_instance_allowed"), s).
Proof.
  intros Hd He Hq Hc Hs Hempty.
  assert (Hraise : authorize_code_attempt url s
                   = (Raise (ValueError invalid_callback_message), s)).
  { unfold authorize_code_attempt.
    apply bind_Raise. rewrite (callback_code_run _ _ _ _ _ _ _ Hq Hc Hs).
    destruct Hempty as [-> | ->]; simpl; [done|].
    by rewrite orb_true_r. }
  rewrite (caught_ValueError _ _ _ _ _ Hraise Hd).
  by apply async_step_user_conflict.
Qed.

(** Reading the pasted URL stores nothing and calls nothing. *)
Lemma callback_code_state url (s : state W) : (callback_code url s).2 = s.
Proof.
  unfold callback_code, bind, lift.
  destruct (urlparse_query url) as [q|e]; [|done].
  destruct (query_param (parse_qs q) "code") as [|c lc]; [done|].
  destruct (query_param (parse_qs q) "state") as [|st ls]; [done|].
  simpl. by destruct (String.eqb c "" || String.eqb st "").
Qed.

(** X7.  In a flow that stored no credentials the callback step raises for
    every input, pasted or absent, and leaves the session, the world and
    the log untouched: whatever the pasted text, nothing is stored and
    nothing is called before the missing [self.data] is met. *)
Theorem callback_step_needs_credentials (user_input : option string)
    (s : state W) :
  data (self s) = None ->
  (async_step_get_authorize_code user_input s).2 = s
  /\ exists e, (async_step_get_authorize_code user_input s).1 = Raise e.
Proof.
  intros Hd.
  assert (Hre : reenter_user_step s = (Raise (AttributeError "data"), s)).
  { unfold reenter_user_step. apply bind_Raise. by apply get_attr_None. }
  destruct user_input as [url|]; simpl.
  2:{ rewrite Hre. split; [done|]. by eexists. }
  assert (Hbody : exists e, authorize_code_attempt url s = (Raise e, s)).
  { unfold authorize_code_attempt.
    pose proof (callback_code_state url s) as Hs.
    destruct (callback_code url s) as [[c|e] s0] eqn:E; simpl in Hs; subst s0.
    - rewrite (bind_Ok _ _ _ _ _ E). eexists. apply bind_Raise.
      by apply get_attr_None.
    - eexists. by apply bind_Raise. }
  destruct Hbody as [e Hbody]. unfold try_except_ValueError. rewrite Hbody.
  destruct (is_ValueError e).
  - rewrite Hre. split; [done|]. by eexists.
  - split; [done|]. by eexists.
Qed.

End MoreSteps.

(** ** Device Discovery, continued *)

Section MoreDiscovery.

Context {C : Consts} {L : PyLib} {W : Type} {P : Platform W}.

(** One turn of the loop over the devices, when it returns. *)
Lemma add_thermostat_option_run p opts thermo (s : state W) o s' :
  add_thermostat_option p opts thermo s = (Ok o, s') ->
  exists webhook progs,
    o = dict_update p
          (candidate_of thermo webhook (filter user_schedule progs)) opts
    /\ calls s' = calls s ++ device_calls p thermo
    /\ self s' = self s.
Proof.
  unfold add_thermostat_option, bind at 1, external at 1.
  destruct (generate_id (world s)) as [i w1].
  unfold bind at 1, get_programs_from_api, bind at 1, get_attr.
  cbn [self world calls].
  destruct (bticino_api (self s)) as [api|]; [|done].
  unfold bind, external. cbn [self world calls].
  destruct (get_chronothermostat_programlist api p (device_id thermo) w1)
    as [[progs|e] w2]; [|done].
  intros [= <- <-]. exists i, progs. split; [done|]. simpl.
  by rewrite <- app_assoc.
Qed.


Lemma add_thermostat_option_keeps_self p opts thermo :
  keeps_self (add_thermostat_option p opts thermo).
Proof.
  unfold add_thermostat_option.
  apply keeps_self_bind; [apply keeps_self_external|]. intros webhook.
  apply keeps_self_bind; [|intros; apply keeps_self_ret].
  unfold get_programs_from_api.
  apply keeps_self_bind; [apply keeps_self_get_attr|]. intros api.
  apply keeps_self_bind; [apply keeps_self_external|].
  intros; apply keeps_self_ret.
Qed.

Lemma add_plant_options_keeps_self opts p :
  keeps_self (add_plant_options opts p).
Proof.
  unfold add_plant_options.
  apply keeps_self_bind; [apply keeps_self_get_attr|]. intros api.
  apply keeps_self_bind; [apply keeps_self_external|]. intros topologies.
  apply keeps_self_foldM. intros b a. apply add_thermostat_option_keeps_self.
Qed.

Lemma discover_thermostats_self (plants : list plant) (s : state W) :
  self (discover_thermostats plants s).2
  = match (discover_thermostats plants s).1 with
    | Ok opts => mk_flow (data (self s)) (bticino_api (self s)) (Some opts)
    | Raise _ => self s
    end.
Proof.
  unfold discover_thermostats, bind.
  pose proof (keeps_self_foldM add_plant_options
                (set_to_list (map plant_id plants))
                add_plant_options_keeps_self [] s) as Hself.
  destruct (foldM add_plant_options _ [] s) as [[o|e] s1]; simpl in *;
    by rewrite ?Hself.
Qed.

(** X10.  The discovery assigns [self._thermostat_options] once, after
    the last plant: when it returns, the attribute holds the collection it
    returns and the other attributes are as they were; when a call raises
    on the way, the session is as it was, with no partial collection
    stored. *)
Theorem discovery_stores_all_or_nothing (plants : list plant) (s : state W) :
  self (discover_thermostats plants s).2
  = match (discover_thermostats plants s).1 with
    | Ok opts => mk_flow (data (self s)) (bticino_api (self s)) (Some opts)
    | Raise _ => self s
    end.
Proof. apply discover_thermostats_self. Qed.

(** X9.  However many devices the topologies hold, the collection that
    the discovery returns has one entry per plant at most: its keys are
    distinct and are plant identifiers of the listing, so it is no longer
    than the listing has distinct identifiers. *)
Theorem one_candidate_per_plant (plants : list plant) (s : state W) opts s' :
  SetToListSpec L ->
  discover_thermostats plants s = (Ok opts, s') ->
  NoDup (map fst opts)
  /\ (forall k, k ∈ map fst opts -> k ∈ map plant_id plants)
  /\ length opts <= length (set_to_list (map plant_id plants))
  /\ length opts <= length plants.
Proof.
  intros Hset Hrun.
  destruct (discover_thermostats_keys plants s opts s' Hset Hrun)
    as [[Hnd Hsub] Hlen].
  split; [done|]. split; [done|]. split; [done|].
  etrans; [exact Hlen|]. rewrite <- (length_map plant_id plants).
  apply submseteq_length, NoDup_submseteq; [apply set_to_list_NoDup|].
  intros x Hx. by apply set_to_list_elem.
Qed.

(** X11.  Every candidate of the collection that the discovery returns
    lists only programs whose number is not 0. *)
Theorem discovered_candidates_list_schedules_only (plants : list plant)
    (s : state W) opts s' :
  discover_thermostats plants s = (Ok opts, s') ->
  schedules_only opts.
Proof.
  unfold discover_thermostats, bind.
  destruct (foldM add_plant_options _ [] s) as [[o|e] s1] eqn:E; [|done].
  intros [= <- _].
  eapply (foldM_invariant schedules_only); [| |exact E]; [|by constructor].
  intros b p s0 b' s0' _ Hb. unfold add_plant_options, bind.
  destruct (get_attr _ _ s0) as [[api|e0] s2]; [|done].
  destruct (external _ _ s2) as [[topologies|e1] s3]; [|done].
  apply (foldM_invariant schedules_only); [|done].
  intros b1 thermo s4 b1' s4' _ Hb1 Hrun.
  destruct (add_thermostat_option_run _ _ _ _ _ _ Hrun)
    as (webhook & progs & -> & _).
  apply dict_update_Forall; [|done]. simpl.
  apply Forall_forall. intros x Hx. by apply list_elem_of_filter in Hx as [? _].
Qed.

(** The health check and the plant listing, when both answer. *)
Lemma discovery_form_listing (s1 : state W) api plants w2 w3 :
  bticino_api (self s1) = Some api ->
  check_api_endpoint_health api (world s1) = (Ok true, w2) ->
  get_plants api w2 = (Ok plants, w3) ->
  plants_status_code plants = 200%Z ->
  discovery_form s1
  = bind (discover_thermostats (plants_data plants))
      (fun o => ret (ShowForm "select_thermostats"
                       (SelectThermostatsSchema (option_names o) (option_names o))
                       None))
      (mk_state (self s1) w3
         ((calls s1 ++ [Call_check_api_endpoint_health]) ++ [Call_get_plants])).
Proof.
  intros Hapi Hh Hp Hstatus. unfold discovery_form.
  rewrite (bind_Ok _ _ _ _ _ (get_attr_Some _ _ _ _ Hapi)).
  unfold bind at 1. unfold external at 1. rewrite Hh. simpl.
  unfold bind at 1. unfold external at 1. simpl. rewrite Hp, Hstatus. simpl.
  unfold bind.
  by destruct (discover_thermostats (plants_data plants) _) as [[o|e] s4].
Qed.

(** The callback step when every call answers and the discovery returns. *)
Lemma selection_form_run url (s : state W)
    d q c lc st ls tokens w1 w2 plants w3 opts s4 :
  data (self s) = Some d ->
  urlparse_query url = Ok q ->
  query_param (parse_qs q) "code" = c :: lc ->
  query_param (parse_qs q) "state" = st :: ls ->
  c ≠ "" -> st ≠ "" ->
  exchange_code_for_tokens (client_id d) (client_secret d)
    DEFAULT_REDIRECT_URI c (world s) = (Ok tokens, w1) ->
  check_api_endpoint_health (exchanged d c tokens) w1 = (Ok true, w2) ->
  get_plants (exchanged d c tokens) w2 = (Ok plants, w3) ->
  plants_status_code plants = 200%Z ->
  discover_thermostats (plants_data plants) (after_listing s d c tokens w3)
  = (Ok opts, s4) ->
  async_step_get_authorize_code (Some url) s
  = (Ok (ShowForm "select_thermostats"
           (SelectThermostatsSchema (option_names opts) (option_names opts))
           None),
     s4)
  /\ self s4
     = mk_flow (Some (exchanged d c tokens)) (Some (exchanged d c tokens))
         (Some opts).
Proof.
  intros Hd Hq Hc Hs Hc0 Hs0 Hx Hh Hp Hstatus Hdisc.
  assert (E : authorize_code_attempt url s
              = (Ok (ShowForm "select_thermostats"
                       (SelectThermostatsSchema (option_names opts)
                          (option_names opts)) None), s4)).
  { rewrite (authorize_code_attempt_exchange _ _ _ _ _ _ _ _ _ _
               Hd Hq Hc Hs Hc0 Hs0 Hx).
    fold (after_exchange s d c tokens w1).
    rewrite (discovery_form_listing (after_exchange s d c tokens w1)
               (exchanged d c tokens) plants w2 w3 eq_refl Hh Hp Hstatus).
    unfold after_exchange. cbn [self world calls].
    rewrite <- !app_assoc. simpl app.
    fold (after_listing s d c tokens w3).
    by rewrite (bind_Ok _ _ _ _ _ Hdisc). }
  split.
  - rewrite async_step_get_authorize_code_no_ValueError
      by (rewrite E; discriminate).
    exact E.
  - pose proof (discover_thermostats_self (plants_data plants)
                  (after_listing s d c tokens w3)) as Hself.
    by rewrite Hdisc in Hself.
Qed.

(** X12.  When the exchange, the health check and the listing (status
    200) answer and the discovery returns a collection, the step stores it
    and shows the selection form built from it: the names of its
    candidates in the order of the collection, every one of them both
    offered and selected by default.  The session holds the tokens and the
    API object built from them. *)
Theorem discovery_shows_every_candidate_selected url (s : state W)
    d q c lc st ls tokens w1 w2 plants w3 opts s4 :
  data (self s) = Some d ->
  urlparse_query url = Ok q ->
  query_param (parse_qs q) "code" = c :: lc ->
  query_param (parse_qs q) "state" = st :: ls ->
  c ≠ "" -> st ≠ "" ->
  exchange_code_for_tokens (client_id d) (client_secret d)
    DEFAULT_REDIRECT_URI c (world s) = (Ok tokens, w1) ->
  check_api_endpoint_health (exchanged d c tokens) w1 = (Ok true, w2) ->
  get_plants (exchanged d c tokens) w2 = (Ok plants, w3) ->
  plants_status_code plants = 200%Z ->
  discover_thermostats (plants_data plants) (after_listing s d c tokens w3)
  = (Ok opts, s4) ->
  async_step_get_authorize_code (Some url) s
  = (Ok (ShowForm "select_thermostats"
           (SelectThermostatsSchema (option_names opts) (option_names opts))
           None),
     s4)
  /\ self s4
     = mk_flow (Some (exchanged d c tokens)) (Some (exchanged d c tokens))
         (Some opts).
Proof. apply selection_form_run. Qed.

Lemma set_to_list_nil : SetToListSpec L -> set_to_list [] = [].
Proof.
  intros Hset. pose proof (set_to_list_elem []) as H.
  destruct (set_to_list []) as [|x l]; [done|].
  destruct (H x) as [Hx _]. exfalso.
  apply (not_elem_of_nil x), Hx. by left.
Qed.

(** X13.  When the listing answers with status 200 and no plant, the step
    stores an empty collection and shows a selection form without any
    option; no topology is queried, no identifier minted and no program
    list fetched. *)
Theorem empty_listing_shows_empty_selection url (s : state W)
    d q c lc st ls tokens w1 w2 plants w3 :
  SetToListSpec L ->
  data (self s) = Some d ->
  urlparse_query url = Ok q ->
  query_param (parse_qs q) "code" = c :: lc ->
  query_param (parse_qs q) "state" = st :: ls ->
  c ≠ "" -> st ≠ "" ->
  exchange_code_for_tokens (client_id d) (client_secret d)
    DEFAULT_REDIRECT_URI c (world s) = (Ok tokens, w1) ->
  check_api_endpoint_health (exchanged d c tokens) w1 = (Ok true, w2) ->
  get_plants (exchanged d c tokens) w2 = (Ok plants, w3) ->
  plants_status_code plants = 200%Z ->
  plants_data plants = [] ->
  async_step_get_authorize_code (Some url) s
  = (Ok (ShowForm "select_thermostats" (SelectThermostatsSchema [] []) None),
     mk_state
       (mk_flow (Some (exchanged d c tokens)) (Some (exchanged d c tokens))
          (Some []))
       w3
       (calls s ++ [Call_exchange_code_for_tokens (client_id d) (client_secret d)
                      DEFAULT_REDIRECT_URI c;
                    Call_check_api_endpoint_health; Call_get_plants])).
Proof.
  intros Hset Hd Hq Hc Hs Hc0 Hs0 Hx Hh Hp Hstatus Hnone.
  refine (proj1 (selection_form_run url s d q c lc st ls
                   tokens w1 w2 plants w3 [] _ Hd Hq Hc Hs Hc0 Hs0 Hx Hh Hp
                   Hstatus _)).
  rewrite Hnone. unfold discover_thermostats. simpl map.
  by rewrite (set_to_list_nil Hset).
Qed.

End MoreDiscovery.

(** ** The selection step and the phases of the calls *)

Section MoreSelection.

Context {C : Consts} {L : PyLib} {W : Type} {P : Platform W}.

Lemma only_local {A} F var (v : option A) : only F (local var v : M W A).
Proof. destruct v; [apply only_ret | apply only_raise]. Qed.

Lemma keeps_self_raise {A} e : keeps_self (@raise W A e).
Proof. by intros s. Qed.

Lemma keeps_self_item {A} key (v : option A) : keeps_self (@item W A key v).
Proof. destruct v; [apply keeps_self_ret | apply keeps_self_raise]. Qed.

Lemma keeps_self_mapM {A B} (f : A -> M W B) (l : list A) :
  (forall a, keeps_self (f a)) -> keeps_self (mapM f l).
Proof.
  intros Hf. induction l as [|x l IH]; simpl.
  - apply keeps_self_ret.
  - apply keeps_self_bind; [apply Hf|]. intros y.
    apply keeps_self_bind; [apply IH|]. intros ys. apply keeps_self_ret.
Qed.

(** Discharges [only F m] along the structure of [m]. *)
Ltac only_auto :=
  repeat first
    [ apply only_ret | apply only_raise | apply only_get_attr
    | apply only_set_self | apply only_observe | apply only_item
    | apply only_lift | apply only_first_item | apply only_local
    | apply only_external; exact I
    | apply only_foldM; intros
    | apply only_mapM; intros
    | apply only_try_except; [|intros]
    | apply only_bind; [|intros]
    | match goal with
      | |- only _ (if ?b then _ else _) => destruct b
      | |- only _ (match ?x with _ => _ end) => destruct x
      end ].

Lemma async_step_user_never_subscribes user_input :
  only not_subscribe (async_step_user user_input).
Proof.
  unfold async_step_user, get_authorization_url, token_hex. only_auto.
Qed.

Lemma async_step_get_authorize_code_never_subscribes user_input :
  only not_subscribe (async_step_get_authorize_code user_input).
Proof.
  assert (Hre : only not_subscribe reenter_user_step).
  { unfold reenter_user_step. apply only_bind; [apply only_get_attr|].
    intros d. apply async_step_user_never_subscribes. }
  destruct user_input as [url|]; [|exact Hre]. simpl.
  apply only_try_except; [|by intros _].
  unfold authorize_code_attempt, callback_code, discovery_form,
    discover_thermostats, add_plant_options, add_thermostat_option,
    get_programs_from_api.
  only_auto.
Qed.

(** X14.  Before the selection step no subscription is requested: whatever the
    input and the world, and on every path (abort, form, handled or
    unhandled exception), the calls of the credentials step and of the
    callback step are none of them a subscription request. *)
Theorem no_subscription_before_selection (credentials : option flow_data)
    (pasted : option string) (s : state W) :
  (exists new,
      calls (async_step_user credentials s).2 = calls s ++ new
      /\ Forall not_subscribe new)
  /\ (exists new,
        calls (async_step_get_authorize_code pasted s).2 = calls s ++ new
        /\ Forall not_subscribe new).
Proof.
  split.
  - apply async_step_user_never_subscribes.
  - apply async_step_get_authorize_code_never_subscribes.
Qed.

(** X15.  The first two steps never ask the platform to persist an entry,
    whatever the input and the world. *)
Theorem no_entry_before_selection (credentials : option flow_data)
    (pasted : option string) (s : state W) :
  entry_of (async_step_user credentials s).1 = None
  /\ entry_of (async_step_get_authorize_code pasted s).1 = None.
Proof.
  split.
  - pose proof (async_step_user_creates_no_entry credentials s) as H.
    destruct (async_step_user credentials s) as [[r|e] s']; [|done].
    specialize (H r s' eq_refl). by destruct r.
  - pose proof (async_step_get_authorize_code_creates_no_entry pasted s) as H.
    destruct (async_step_get_authorize_code pasted s) as [[r|e] s']; [|done].
    specialize (H r s' eq_refl). by destruct r.
Qed.

Lemma add_c2c_subscription_keeps_self plantId webhook :
  keeps_self (add_c2c_subscription plantId webhook).
Proof.
  unfold add_c2c_subscription.
  apply keeps_self_bind; [apply keeps_self_get_attr|]. intros d.
  apply keeps_self_bind; [apply keeps_self_get_attr|]. intros api.
  apply keeps_self_bind; [apply keeps_self_external|]. intros response.
  destruct (Z.eqb _ _); apply keeps_self_ret.
Qed.

(** X16.  The selection step, on every path, assigns no attribute of the flow
    and makes no call other than subscription requests: it never queries
    the plants again, draws no token and mints no identifier. *)
Theorem selection_step_only_subscribes (user_input : list string) (s : state W) :
  self (async_step_select_thermostats user_input s).2 = self s
  /\ exists new,
       calls (async_step_select_thermostats user_input s).2 = calls s ++ new
       /\ Forall is_subscribe new.
Proof.
  split.
  - revert s. change (keeps_self (async_step_select_thermostats user_input)).
    unfold async_step_select_thermostats.
    apply keeps_self_bind; [apply keeps_self_get_attr|]. intros opts.
    apply keeps_self_bind.
    { apply keeps_self_mapM. intros kv.
      apply keeps_self_bind; [apply add_c2c_subscription_keeps_self|].
      intros sub. apply keeps_self_ret. }
    intros selected.
    apply keeps_self_bind; [apply keeps_self_get_attr|]. intros d.
    do 3 (apply keeps_self_bind; [apply keeps_self_item|]; intros ?).
    apply keeps_self_ret.
  - revert s.
    change (only is_subscribe (async_step_select_thermostats user_input)).
    unfold async_step_select_thermostats, add_c2c_subscription. only_auto.
Qed.

(** X17.  When none of the selected names is the name of a candidate (an empty
    selection, for one), the step returns an entry without thermostats
    and requests no subscription; it does not need the API object. *)
Theorem selecting_nothing_persists_no_thermostat (user_input : list string)
    (s : state W) d thermostat_options tok rtok expires :
  _thermostat_options (self s) = Some thermostat_options ->
  data (self s) = Some d ->
  access_token d = Some tok ->
  refresh_token d = Some rtok ->
  access_token_expires_on d = Some expires ->
  Forall (fun kv : string * thermostat => name kv.2 ∉ user_input)
    thermostat_options ->
  async_step_select_thermostats user_input s
  = (Ok (CreateEntry "Bticino X8000"
           (mk_config_record (client_id d) (client_secret d)
              (subscription_key d) (external_url d) tok rtok expires [])),
     s).
Proof.
  intros Hopts Hd Htok Hrtok Hexp Hnone.
  unfold async_step_select_thermostats.
  rewrite (bind_Ok _ _ _ _ _ (get_attr_Some _ _ _ _ Hopts)).
  rewrite (filter_none _ _ Hnone). simpl mapM.
  unfold bind at 1. unfold ret at 1.
  rewrite (bind_Ok _ _ _ _ _ (get_attr_Some _ _ _ _ Hd)).
  by rewrite Htok, Hrtok, Hexp.
Qed.

(** The comprehension over the chosen candidates when a request raises:
    the requests up to that one were made, and the exception leaves. *)
Lemma subscribe_each_stops (d api : flow_data)
    (chosen : list (string * thermostat)) : forall s : state W,
  data (self s) = Some d ->
  bticino_api (self s) = Some api ->
  length (subscribe_answers d api chosen (world s)) < length chosen ->
  exists e s',
    mapM (fun kv : string * thermostat =>
            sub <- add_c2c_subscription kv.1 (webhook_id kv.2) ;;
            ret (kv.1, mk_selected kv.2 sub)) chosen s
    = (Raise e, s')
    /\ calls s'
       = calls s
         ++ map (subscribe_call d)
              (take (S (length (subscribe_answers d api chosen (world s))))
                 chosen).
Proof.
  induction chosen as [|kv chosen IH]; intros s Hd Hapi Hlen; simpl in Hlen.
  { lia. }
  destruct (set_subscribe_C2C_notifications api kv.1
              (webhook_endpoint_of d (webhook_id kv.2)) (world s))
    as [[response|e] w'] eqn:Hcall.
  - pose proof (add_c2c_subscription_run _ _ _ _ _ _ _ Hd Hapi Hcall) as Hrun.
    simpl in Hrun. simpl mapM. unfold bind at 1. unfold bind at 1.
    rewrite Hrun. unfold ret at 1.
    simpl subscribe_answers. rewrite Hcall.
    set (s1 := mk_state (self s) w' _).
    destruct (IH s1 Hd Hapi) as (e & s' & Hmap & Hcalls).
    { subst s1. simpl. simpl in Hlen. lia. }
    unfold bind at 1. rewrite Hmap. exists e, s'. split; [done|].
    rewrite Hcalls. subst s1. simpl. by rewrite <- app_assoc.
  - pose proof (add_c2c_subscription_run _ _ _ _ _ _ _ Hd Hapi Hcall) as Hrun.
    simpl in Hrun. simpl mapM. unfold bind at 1. unfold bind at 1.
    rewrite Hrun. simpl subscribe_answers. rewrite Hcall. simpl.
    eexists _, _. split; [done|]. simpl. by rewrite ?take_0.
Qed.

(** X18.  When the request for one of the chosen candidates raises, the step
    raises and returns no entry, yet the requests for the candidates
    before it were made and answered: the calls of the step are the
    requests for the chosen candidates up to the raising one. *)
Theorem raising_request_ends_the_selection (user_input : list string)
    (s : state W) d api thermostat_options chosen answered :
  data (self s) = Some d ->
  bticino_api (self s) = Some api ->
  _thermostat_options (self s) = Some thermostat_options ->
  chosen = filter (fun kv : string * thermostat => name kv.2 ∈ user_input)
             thermostat_options ->
  answered = length (subscribe_answers d api chosen (world s)) ->
  answered < length chosen ->
  exists e s',
    async_step_select_thermostats user_input s = (Raise e, s')
    /\ calls s' = calls s ++ map (subscribe_call d) (take (S answered) chosen).
Proof.
  intros Hd Hapi Hopts -> -> Hlen.
  destruct (subscribe_each_stops d api _ s Hd Hapi Hlen)
    as (e & s' & Hmap & Hcalls).
  exists e, s'. split; [|done].
  unfold async_step_select_thermostats.
  rewrite (bind_Ok _ _ _ _ _ (get_attr_Some _ _ _ _ Hopts)).
  by rewrite (bind_Raise _ _ _ _ _ Hmap).
Qed.

End MoreSelection.

(** ** From the callback to the entry *)

Section Composition.

Context {C : Consts} {L : PyLib} {W : Type} {P : Platform W}.

(** X19.  The selection step run on the session that the callback step
    leaves after a discovery returns an entry that holds the four
    credentials as they were submitted and the three values of the
    exchange each in its own field: the first as access token, the second
    as refresh token, the third as expiry.  The code is not part of the
    entry. *)
Theorem entry_holds_credentials_and_tokens (user_input : list string)
    (s : state W) d c tokens thermostat_options :
  self s
  = mk_flow (Some (exchanged d c tokens)) (Some (exchanged d c tokens))
      (Some thermostat_options) ->
  (forall p url w, exists response w',
      set_subscribe_C2C_notifications (exchanged d c tokens) p url w
      = (Ok response, w')) ->
  exists selected,
    (async_step_select_thermostats user_input s).1
    = Ok (CreateEntry "Bticino X8000"
            {| entry_client_id := client_id d;
               entry_client_secret := client_secret d;
               entry_subscription_key := subscription_key d;
               entry_external_url := external_url d;
               entry_access_token := tokens.1.1;
               entry_refresh_token := tokens.1.2;
               entry_access_token_expires_on := tokens.2;
               selected_thermostats := selected |})
    /\ map fst selected
       = map fst (filter (fun kv : string * thermostat => name kv.2 ∈ user_input)
                    thermostat_options).
Proof.
  intros Hself Hans.
  assert (Hd : data (self s) = Some (exchanged d c tokens)) by by rewrite Hself.
  assert (Hapi : bticino_api (self s) = Some (exchanged d c tokens))
    by by rewrite Hself.
  assert (Hopts : _thermostat_options (self s) = Some thermostat_options)
    by by rewrite Hself.
  destruct (subscribe_each_run _ _
              (filter (fun kv : string * thermostat => name kv.2 ∈ user_input)
                 thermostat_options) Hans s Hd Hapi)
    as (s' & Hmap & Hlen & Hself' & Hcalls).
  eexists. split.
  - unfold async_step_select_thermostats.
    rewrite (bind_Ok _ _ _ _ _ (get_attr_Some _ _ _ _ Hopts)).
    rewrite (bind_Ok _ _ _ _ _ Hmap).
    rewrite <- Hself' in Hd.
    rewrite (bind_Ok _ _ _ _ _ (get_attr_Some _ _ _ _ Hd)).
    reflexivity.
  - revert Hlen.
    generalize (subscribe_answers (exchanged d c tokens) (exchanged d c tokens)
                  (filter (fun kv : string * thermostat => name kv.2 ∈ user_input)
                     thermostat_options) (world s)).
    generalize (filter (fun kv : string * thermostat => name kv.2 ∈ user_input)
                  thermostat_options).
    intros chosen. induction chosen as [|kv chosen IH]; intros [|r answers];
      simpl; try done.
    intros [= Hlen]. by rewrite IH.
Qed.

End Composition.

(** * More of the flow on the reference worlds *)

Module MoreScenarios.

Import Reference MoreWorlds.

Lemma credentials_step_shows_client_id_only_witness :
  client_id credentials = client_id other_secret
  /\ (async_step_user (Some credentials) (start home)).1
     = (async_step_user (Some other_secret) (start home)).1.
Proof.
  split; [reflexivity|].
  apply (credentials_step_shows_client_id_only credentials other_secret
           (start home)).
  reflexivity.
Defined.

Lemma invalid_callback_aborts_when_configured_witness :
  async_current_entries (world configured_meanwhile) = true
  /\ query_param (parse_qs "state=XYZ") "code" = [""]
  /\ async_step_get_authorize_code (Some "https://x/cb?state=XYZ")
       configured_meanwhile
     = (Ok (Abort "single_instance_allowed"), configured_meanwhile).
Proof.
  do 2 (split; [reflexivity|]).
  apply (invalid_callback_aborts_when_configured "https://x/cb?state=XYZ"
           configured_meanwhile credentials "state=XYZ" "" [] "XYZ" []);
    first [reflexivity | left; reflexivity].
Defined.

Lemma callback_step_needs_credentials_witness :
  data (self (start home)) = None
  /\ (async_step_get_authorize_code (Some callback) (start home)).2 = start home
  /\ exists e,
       (async_step_get_authorize_code (Some callback) (start home)).1 = Raise e.
Proof.
  split; [reflexivity|].
  apply (callback_step_needs_credentials (Some callback) (start home)).
  reflexivity.
Defined.


Lemma discovered_candidates_list_schedules_only_witness :
  discover_thermostats (plants_data (sim_plants two_homes)) (before_devices two_homes)
  = (Ok [("plant-2", mk_thermostat "dev-2" "Bedroom" "wh1" [mk_program 2 "night"]);
         ("plant-1", mk_thermostat "dev-1" "Living Room" "wh2" [mk_program 1 "week"])],
     (discover_thermostats (plants_data (sim_plants two_homes))
        (before_devices two_homes)).2)
  /\ schedules_only
       [("plant-2", mk_thermostat "dev-2" "Bedroom" "wh1" [mk_program 2 "night"]);
        ("plant-1", mk_thermostat "dev-1" "Living Room" "wh2" [mk_program 1 "week"])].
Proof.
  split; [vm_compute; reflexivity|].
  apply (discovered_candidates_list_schedules_only
           (plants_data (sim_plants two_homes)) (before_devices two_homes) _
           (discover_thermostats (plants_data (sim_plants two_homes))
              (before_devices two_homes)).2).
  vm_compute; reflexivity.
Defined.

Lemma one_candidate_per_plant_witness :
  discover_thermostats (plants_data (sim_plants two_homes)) (before_devices two_homes)
  = (Ok [("plant-2", mk_thermostat "dev-2" "Bedroom" "wh1" [mk_program 2 "night"]);
         ("plant-1", mk_thermostat "dev-1" "Living Room" "wh2" [mk_program 1 "week"])],
     (discover_thermostats (plants_data (sim_plants two_homes))
        (before_devices two_homes)).2)
  /\ NoDup ["plant-2"; "plant-1"]
  /\ length (plants_data (sim_plants two_homes)) = 3.
Proof.
  split; [vm_compute; reflexivity|]. split; [|reflexivity].
  refine (proj1 (one_candidate_per_plant
                   (plants_data (sim_plants two_homes)) (before_devices two_homes)
                   [("plant-2", mk_thermostat "dev-2" "Bedroom" "wh1" [mk_program 2 "night"]);
                    ("plant-1", mk_thermostat "dev-1" "Living Room" "wh2" [mk_program 1 "week"])]
                   (discover_thermostats (plants_data (sim_plants two_homes))
                      (before_devices two_homes)).2 pylib_set_to_list _)).
  vm_compute; reflexivity.
Defined.

Lemma discovery_shows_every_candidate_selected_witness :
  discover_thermostats (plants_data (sim_plants two_homes))
    (after_listing (awaiting_callback two_homes) credentials "ABC" tokens
       (world (awaiting_callback two_homes)))
  = (Ok [("plant-2", bedroom_2); ("plant-1", living_room)],
     selecting_devices two_homes)
  /\ async_step_get_authorize_code (Some callback) (awaiting_callback two_homes)
     = (Ok (ShowForm "select_thermostats"
              (SelectThermostatsSchema ["Bedroom"; "Living Room"]
                 ["Bedroom"; "Living Room"])
              None),
        selecting_devices two_homes).
Proof.
  split; [vm_compute; reflexivity|].
  refine (proj1 (discovery_shows_every_candidate_selected callback
                   (awaiting_callback two_homes) credentials
                   "code=ABC&state=XYZ" "ABC" [] "XYZ" [] tokens
                   (world (awaiting_callback two_homes))
                   (world (awaiting_callback two_homes))
                   (sim_plants two_homes)
                   (world (awaiting_callback two_homes))
                   [("plant-2", bedroom_2); ("plant-1", living_room)]
                   (selecting_devices two_homes)
                   _ _ _ _ _ _ _ _ _ _ _));
    first [discriminate | vm_compute; reflexivity].
Defined.

Lemma empty_listing_shows_empty_selection_witness :
  get_plants (exchanged credentials "ABC" tokens) (world (awaiting_callback no_plant))
  = (Ok (mk_plants_response 200 []), world (awaiting_callback no_plant))
  /\ (async_step_get_authorize_code (Some callback) (awaiting_callback no_plant)).1
     = Ok (ShowForm "select_thermostats" (SelectThermostatsSchema [] []) None)
  /\ calls (async_step_get_authorize_code (Some callback)
              (awaiting_callback no_plant)).2
     = calls (awaiting_callback no_plant)
       ++ [Call_exchange_code_for_tokens "my-client" "my-secret"
             "https://redirect.example/cb" "ABC";
           Call_check_api_endpoint_health; Call_get_plants].
Proof.
  split; [reflexivity|].
  rewrite (empty_listing_shows_empty_selection callback
             (awaiting_callback no_plant) credentials
             "code=ABC&state=XYZ" "ABC" [] "XYZ" [] tokens
             (world (awaiting_callback no_plant))
             (world (awaiting_callback no_plant))
             (mk_plants_response 200 [])
             (world (awaiting_callback no_plant))
             pylib_set_to_list);
    first [split; reflexivity | reflexivity | discriminate].
Defined.

Lemma selecting_nothing_persists_no_thermostat_witness :
  _thermostat_options (self (selecting_devices two_homes))
  = Some [("plant-2", bedroom_2); ("plant-1", living_room)]
  /\ async_step_select_thermostats ["Kitchen"] (selecting_devices two_homes)
     = (Ok (CreateEntry "Bticino X8000"
              (mk_config_record "my-client" "my-secret" "my-key"
                 "https://ha.example" "tok_a" "tok_r" "2025-01-01T00:00:00Z" [])),
        selecting_devices two_homes).
Proof.
  split; [reflexivity|].
  apply (selecting_nothing_persists_no_thermostat ["Kitchen"]
           (selecting_devices two_homes) session_data
           [("plant-2", bedroom_2); ("plant-1", living_room)]);
    try reflexivity.
  repeat constructor; simpl; intros H; inversion H; subst;
    match goal with H' : _ ∈ [] |- _ => inversion H' end.
Defined.

Lemma entry_holds_credentials_and_tokens_witness :
  self (selecting_devices two_homes)
  = mk_flow (Some (exchanged credentials "ABC" tokens))
      (Some (exchanged credentials "ABC" tokens))
      (Some [("plant-2", bedroom_2); ("plant-1", living_room)])
  /\ exists selected,
       (async_step_select_thermostats ["Bedroom"] (selecting_devices two_homes)).1
       = Ok (CreateEntry "Bticino X8000"
               (mk_config_record "my-client" "my-secret" "my-key"
                  "https://ha.example" "tok_a" "tok_r" "2025-01-01T00:00:00Z"
                  selected)).
Proof.
  split; [vm_compute; reflexivity|].
  destruct (entry_holds_credentials_and_tokens ["Bedroom"]
              (selecting_devices two_homes) credentials "ABC" tokens
              [("plant-2", bedroom_2); ("plant-1", living_room)])
    as (selected & Hentry & _).
  { vm_compute; reflexivity. }
  { intros p url w. eexists _, _. reflexivity. }
  exists selected. exact Hentry.
Defined.

End MoreScenarios.

Module FaultScenarios.

Import Faults.

Lemma credentials_step_always_returns_witness :
  hass_config_external_url (world (start no_external_url))
  = Raise (AttributeError "external_url")
  /\ (async_step_user None (start no_external_url)).1
     = Ok (ShowForm "user"
             (UserSchema CLIENT_ID CLIENT_SECRET SUBSCRIPTION_KEY
                (Some external_url_prompt))
             None).
Proof.
  split; [vm_compute; reflexivity|].
  destruct (credentials_step_always_returns None (start no_external_url))
    as (r & Hr & _ & Hform).
  rewrite Hr. f_equal.
  apply (Hform (AttributeError "external_url")); reflexivity.
Defined.

Lemma exchange_ValueError_is_handled_witness :
  exchange_code_for_tokens "my-client" "my-secret" DEFAULT_REDIRECT_URI "ABC"
    (world awaiting_invalid_grant)
  = (Raise (ValueError "invalid_grant"),
     world awaiting_invalid_grant)
  /\ exists form s',
       async_step_get_authorize_code (Some Reference.callback)
         awaiting_invalid_grant
       = (Ok form, s')
       /\ data (self s') = Some (set_code Reference.credentials "ABC")
       /\ bticino_api (self s') = None.
Proof.
  split; [vm_compute; reflexivity|].
  eexists _, _.
  rewrite (exchange_ValueError_is_handled Reference.callback
             awaiting_invalid_grant
             Reference.credentials "code=ABC&state=XYZ" "ABC" [] "XYZ" []
             "invalid_grant"
             (world awaiting_invalid_grant));
    first [discriminate | vm_compute; reflexivity | idtac].
  split; [vm_compute; reflexivity|]. split; reflexivity.
Defined.

Lemma exchange_other_error_is_not_handled_witness :
  is_ValueError (OtherError "ClientError") = false
  /\ exists s',
       async_step_get_authorize_code (Some Reference.callback)
         awaiting_client_error
       = (Raise (OtherError "ClientError"), s')
       /\ data (self s') = Some (set_code Reference.credentials "ABC").
Proof.
  split; [vm_compute; reflexivity|].
  eexists.
  rewrite (exchange_other_error_is_not_handled Reference.callback
             awaiting_client_error
             Reference.credentials "code=ABC&state=XYZ" "ABC" [] "XYZ" []
             (OtherError "ClientError")
             (world awaiting_client_error));
    first [discriminate | vm_compute; reflexivity | idtac].
  split; [reflexivity | vm_compute; reflexivity].
Defined.

Lemma rejected_url_is_handled_witness :
  urlparse_query "http://[::1/cb?code=ABC&state=XYZ"
  = Raise (ValueError "Invalid IPv6 URL")
  /\ exists form s',
       async_step_get_authorize_code
         (Some "http://[::1/cb?code=ABC&state=XYZ") awaiting_sound
       = (Ok form, s')
       /\ self s' = self awaiting_sound
       /\ calls s' = calls awaiting_sound ++ [Call_token_hex 16].
Proof.
  split; [vm_compute; reflexivity|].
  eexists _, _.
  rewrite (rejected_url_is_handled "http://[::1/cb?code=ABC&state=XYZ"
             awaiting_sound Reference.credentials "Invalid IPv6 URL");
    first [vm_compute; reflexivity | idtac].
  split; [vm_compute; reflexivity|]. split; reflexivity.
Defined.

Lemma raising_request_ends_the_selection_witness :
  _thermostat_options (self refusing_plant_1)
  = Some [("plant-2", Reference.bedroom_2); ("plant-1", Reference.living_room)]
  /\ length (subscribe_answers Reference.session_data Reference.session_data
               [("plant-2", Reference.bedroom_2);
                ("plant-1", Reference.living_room)]
               (world refusing_plant_1)) = 1
  /\ exists e s',
       async_step_select_thermostats ["Living Room"; "Bedroom"] refusing_plant_1
       = (Raise e, s')
       /\ calls s'
          = calls refusing_plant_1
            ++ map (subscribe_call Reference.session_data)
                 (take 2 [("plant-2", Reference.bedroom_2);
                          ("plant-1", Reference.living_room)]).
Proof.
  split; [vm_compute; reflexivity|]. split; [vm_compute; reflexivity|].
  apply (raising_request_ends_the_selection ["Living Room"; "Bedroom"]
           refusing_plant_1 Reference.session_data Reference.session_data
           [("plant-2", Reference.bedroom_2); ("plant-1", Reference.living_room)]);
    first [vm_compute; reflexivity | vm_compute; lia].
Defined.

End FaultScenarios.
